(** * IGS census-tract service: ingestion pipeline and token flow

    A shallow embedding of [database.py] (the ingestion run [init_db]) and of
    [main.py] (login, token issue and validation, the record lookups), with the
    properties of the written specification stated over it.

    Conventions.
    - A Python [str] is a [string]; a character is an [ascii].
    - A Python [set] of strings is a [gset string], a [dict] keyed by strings is
      a [gmap string _].
    - A call that may raise returns a [result]: [Return v] or [Raise e].
    - The third-party functions the repository calls but does not define
      ([nh3.clean], the built-in [float], [jose.jwt], passlib's bcrypt context)
      are parameters of the sections that use them; what is assumed about them
      is stated as an explicit hypothesis of each theorem that needs it. *)

From Stdlib Require Import Ascii ZArith.
From Stdlib Require String.
From stdpp Require Import gmap strings list fin_maps.

(** ** Results of calls that may raise *)

Inductive exn : Type :=
| ValueError                      (* float() on a value that is not a number *)
| IntegrityError                  (* UNIQUE constraint of census_tracts.census_tract *)
| PasswordValueError              (* passlib: a password it does not take *)
| HTTPException (status_code : Z) (detail : string).

Inductive result (A : Type) : Type :=
| Return (a : A)
| Raise (e : exn).
Arguments Return {A} a.
Arguments Raise {A} e.

(** What a Python call evaluates to, as far as the callers here can tell:
    [None] (a function that ends without [return]) or an integer. *)
Inductive pyvalue : Type :=
| PyNone
| PyInt (n : Z).

(** ** The [str] methods the ingestion uses *)

Module Str.

(** [c in s] for a one-character [c]. *)
Fixpoint contains (c : ascii) (s : string) : bool :=
  match s with
  | EmptyString => false
  | String d r => if Ascii.eqb d c then true else contains c r
  end.

(** [s.split(c)] for a one-character separator: never the empty list. *)
Fixpoint split (c : ascii) (s : string) : list string :=
  match s with
  | EmptyString => [EmptyString]
  | String d r =>
      if Ascii.eqb d c then EmptyString :: split c r
      else match split c r with
           | w :: ws => String d w :: ws
           | [] => [String d EmptyString]
           end
  end.

(** ['0' * n] *)
Fixpoint zeros (n : nat) : string :=
  match n with
  | O => EmptyString
  | S k => String "0"%char (zeros k)
  end.

Definition is_sign (c : ascii) : bool := Ascii.eqb c "+"%char || Ascii.eqb c "-"%char.

(** [s.zfill(width)]: a string of [width] or more characters is returned as it
    is; a shorter one gets zeros on its left, after a leading sign if it has
    one. *)
Definition zfill (width : nat) (s : string) : string :=
  let n := String.length s in
  if width <=? n then s
  else match s with
       | String c r =>
           if is_sign c then String c (zeros (width - n) +:+ r)
           else zeros (width - n) +:+ s
       | EmptyString => zeros (width - n)
       end.

Definition is_digit (c : ascii) : bool :=
  (48 <=? nat_of_ascii c) && (nat_of_ascii c <=? 57).

(** [s] holds decimal digits only (the empty string included). *)
Fixpoint all_digits (s : string) : bool :=
  match s with
  | EmptyString => true
  | String c r => is_digit c && all_digits r
  end.

End Str.

(** ** database.py *)

Module Database.

Section Model.

(** [cell]: a value pandas hands out for one field of a row; [score]: a Python
    float. *)
Context {cell score : Type}.

(** [nh3.clean]. *)
Variable clean : string → string.

(** The built-in [float] applied to a cell: [None] when it raises. *)
Variable float : cell → option score.

(** A row of the table [census_tracts]. The surrogate key [id] is left out:
    the store is the list of rows in insertion order. *)
Record CensusTract : Type := {
  census_tract : string;
  inclusion_score : score;
  growth_score : score;
  economy_score : score;
  community_score : score
}.

(** A row of the combined frame as [iterrows] yields it inside a run;
    [row_census_tract] is the text [str(row["census_tract"])] of that row,
    the four cells are the values [float] is applied to. The text is that of
    the value pandas holds after it read the files and concatenated them:
    the type of a column is inferred from all its values, so the text
    belongs to the row of the frame of one run, not to the line of the CSV
    file alone. *)
Record Row : Type := {
  row_census_tract : string;
  row_inclusion_score : cell;
  row_growth_score : cell;
  row_economy_score : cell;
  row_community_score : cell
}.

(** The frames of a run, by the path of the file they come from: the rows
    of the combined frame in the order of their file. Every frame has the
    five columns the loop reads. A file that [pd.read_csv] refuses (an empty
    one, for instance) or that lacks one of the columns ([KeyError] at its
    first row) is no value of this type. *)
Definition Files : Type := gmap string (list Row).

Definition _load_csv (fs : Files) (path : string) : list Row :=
  match fs !! path with
  | Some df => df
  | None => []
  end.

(** Lines 70-77: the text of the identifier, cut at the first ".", zero
    filled to 11 characters. *)
Definition tract_id_padded (raw_id : string) : string :=
  let raw_id :=
    if Str.contains "."%char raw_id then
      match Str.split "."%char raw_id with
      | w :: _ => w
      | [] => raw_id
      end
    else raw_id in
  Str.zfill 11 raw_id.

(** Line 79. *)
Definition tract_id_clean (raw_id : string) : string :=
  clean (tract_id_padded raw_id).

(** Lines 87-93: the four [float] calls run in this order, the first that
    raises ends the run. *)
Definition make_tract (tract_id : string) (row : Row) : option CensusTract :=
  a ← float (row_inclusion_score row);
  b ← float (row_growth_score row);
  c ← float (row_economy_score row);
  d ← float (row_community_score row);
  Some {| census_tract := tract_id; inclusion_score := a; growth_score := b;
          economy_score := c; community_score := d |}.

(** The loop of lines 68-94 over the rows left, with the set [seen_tracts]
    and the records added to the session so far. *)
Fixpoint add_rows (rows : list Row) (seen_tracts : gset string)
    (pending : list CensusTract) : result (list CensusTract) :=
  match rows with
  | [] => Return pending
  | row :: rest =>
      let tract_id := tract_id_clean (row_census_tract row) in
      if decide (tract_id ∈ seen_tracts) then add_rows rest seen_tracts pending
      else
        match make_tract tract_id row with
        | None => Raise ValueError
        | Some tract =>
            add_rows rest ({[tract_id]} ∪ seen_tracts) (pending ++ [tract])
        end
  end.

Definition tract_ids (db : list CensusTract) : list string :=
  census_tract <$> db.

(** [session.commit()]: the pending records are inserted in the order they
    were added; the column [census_tract] is declared [unique=True], so an
    insert of a value the table already holds fails and the transaction is
    rolled back ([None]). The table of the model holds the scores as they
    were handed to the session; SQLite keeps a NaN as NULL, so what is said
    of a stored score holds of the scores that are numbers. *)
Fixpoint commit (db pending : list CensusTract) : option (list CensusTract) :=
  match pending with
  | [] => Some db
  | tract :: rest =>
      if decide (census_tract tract ∈ tract_ids db) then None
      else commit (db ++ [tract]) rest
  end.

(** [init_db] run on the files [fs] with the table holding [db]: what the
    call evaluates to, and the table afterwards. An exception inside the
    [with] block closes the session before anything was flushed. *)
Definition init_db (fs : Files) (db : list CensusTract)
    : result pyvalue * list CensusTract :=
  let df_main := _load_csv fs "igs_data.csv" in
  let df_extra := _load_csv fs "igs_data_extra.csv" in
  let combined_frames :=
    match df_extra with
    | [] => [df_main]
    | _ :: _ => [df_main; df_extra]
    end in
  let combined_df := concat combined_frames in
  let existing_tracts : gset string := list_to_set (tract_ids db) in
  let seen_tracts := existing_tracts in
  match add_rows combined_df seen_tracts [] with
  | Raise e => (Raise e, db)
  | Return pending =>
      match commit db pending with
      | Some db' => (Return PyNone, db')
      | None => (Raise IntegrityError, db)
      end
  end.

End Model.

Arguments CensusTract score : clear implicits.
Arguments Row cell : clear implicits.
Arguments Files cell : clear implicits.

End Database.

(** ** main.py *)

(** A JSON value of a token payload: the claims here hold text ([sub]) and
    whole seconds since the epoch ([exp]). *)
Inductive jvalue : Type :=
| JStr (s : string)
| JInt (n : Z).

Module Main.

Section Model.

Context {score : Type}.

(** [nh3.clean]. *)
Variable clean : string → string.

(** [jose.jwt]. [token]: the encoded text. [jwt_encode claims key algorithm].
    [jwt_decode token key algorithms now]: the claims, or [None] when the
    call raises [JWTError] (bad signature, text that is no token, expired
    [exp], a claim of the wrong shape); [now] is the clock it reads. *)
Context {token : Type}.
Variable jwt_encode : gmap string jvalue → string → string → token.
Variable jwt_decode : token → string → list string → Z → option (gmap string jvalue).

(** passlib's [pwd_context]: [hash] (with the salt it drew at import) and
    [verify], which answers [True] or [False] or raises. *)
Context {digest : Type}.
Variable pwd_hash : string → digest.
Variable pwd_verify : string → digest → result bool.

(** Lines 22-24: read from the environment, by default
    ["change-me-for-real-use"], ["HS256"] and [30]. *)
Variable SECRET_KEY : string.
Variable ALGORITHM : string.
Variable ACCESS_TOKEN_EXPIRE_MINUTES : Z.

Record Token : Type := {
  access_token : token;
  token_type : string
}.

Record UserEntry : Type := {
  username : string;
  hashed_password : digest
}.

Definition users_db : gmap string UserEntry :=
  {[ "admin" := {| username := "admin";
                   hashed_password := pwd_hash "securepassword123" |} ]}.

(** [now]: [datetime.utcnow()] in seconds; [timedelta(minutes=m)] is [60 * m]
    seconds. *)
Definition create_access_token (data : gmap string jvalue) (now : Z) : token :=
  let to_encode := data in
  let expire := (now + 60 * ACCESS_TOKEN_EXPIRE_MINUTES)%Z in
  let to_encode := <["exp" := JInt expire]> to_encode in
  jwt_encode to_encode SECRET_KEY ALGORITHM.

Definition credentials_exception : exn :=
  HTTPException 401 "Invalid authentication credentials".

Definition get_current_user (tok : token) (now : Z) : result string :=
  match jwt_decode tok SECRET_KEY [ALGORITHM] now with
  | None => Raise credentials_exception
  | Some payload =>
      match payload !! "sub" with
      | Some (JStr username) =>
          match users_db !! username with
          | Some _ => Return username
          | None => Raise credentials_exception
          end
      | Some (JInt _) => Raise credentials_exception   (* not a key of users_db *)
      | None => Raise credentials_exception
      end
  end.

Definition login (form_username form_password : string) (now : Z) : result Token :=
  match users_db !! form_username with
  | None => Raise (HTTPException 401 "Incorrect username or password")
  | Some user =>
      (* nothing around the call of verify catches what it raises *)
      match pwd_verify form_password (hashed_password user) with
      | Raise e => Raise e
      | Return verified =>
          if negb verified then
            Raise (HTTPException 401 "Incorrect username or password")
          else
            let access_token :=
              create_access_token {[ "sub" := JStr form_username ]} now in
            Return {| access_token := access_token; token_type := "bearer" |}
      end
  end.

(** [get_single_tract], with its dependency [get_current_user] resolved
    first; [db] is the table the session reads. The value is the dictionary
    the function returns, before FastAPI checks it against the response
    model. *)
Definition get_single_tract (census_tract : string) (tok : token) (now : Z)
    (db : list (Database.CensusTract score)) : result (Database.CensusTract score) :=
  match get_current_user tok now with
  | Raise e => Raise e
  | Return current_user =>
      let tract :=
        list_find (λ t, Database.census_tract t = census_tract) db in
      match tract with
      | None => Raise (HTTPException 404 "Census tract not found")
      | Some (_, tract) =>
          Return {| Database.census_tract := clean (Database.census_tract tract);
                    Database.inclusion_score := Database.inclusion_score tract;
                    Database.growth_score := Database.growth_score tract;
                    Database.economy_score := Database.economy_score tract;
                    Database.community_score := Database.community_score tract |}
      end
  end.

Definition read_users_me (tok : token) (now : Z) : result string :=
  match get_current_user tok now with
  | Raise e => Raise e
  | Return current_user => Return current_user
  end.

End Model.

End Main.

(** ** The ingestion steps as the specification words them

    Second definitions, written from the specification's algorithm (4.2, steps
    4a to 4e), to compare with the ones above. *)

Module Spec.

(** 4a: "truncate at the point, keeping only the integer-like prefix". *)
Fixpoint truncate_at_point (raw : string) : string :=
  match raw with
  | EmptyString => EmptyString
  | String c r =>
      if Ascii.eqb c "."%char then EmptyString else String c (truncate_at_point r)
  end.

(** 4b: "left-pad with 0". *)
Definition left_pad (width : nat) (s : string) : string :=
  Str.zeros (width - String.length s) +:+ s.

(** Data model: "exactly 11 characters, zero-padded, digits only". *)
Definition well_formed_id (s : string) : Prop :=
  String.length s = 11 ∧ Str.all_digits s = true.

(** An identifier text whose part before the point is at most 11 digits. *)
Definition digit_text (raw : string) : Prop :=
  Str.all_digits (truncate_at_point raw) = true ∧
  String.length (truncate_at_point raw) ≤ 11.

(** The sanitizer "must not alter a string already composed solely of
    digits" (4.1). *)
Definition keeps_digits (clean : string → string) : Prop :=
  ∀ s, Str.all_digits s = true → clean s = s.

Section Dedup.

Context {cell : Type}.
Variable clean : string → string.

(** 4d, 4e: the rows that are not skipped, each with its identifier: a row
    is skipped when its identifier is in the seen-set, and adds it
    otherwise. *)
Fixpoint kept_rows (seen : gset string) (rows : list (Database.Row cell))
    : list (string * Database.Row cell) :=
  match rows with
  | [] => []
  | row :: rest =>
      let i := Database.tract_id_clean clean (Database.row_census_tract row) in
      if decide (i ∈ seen) then kept_rows seen rest
      else (i, row) :: kept_rows ({[i]} ∪ seen) rest
  end.

(** Steps 1 and 2: the rows of the primary source, then those of the
    supplementary one; a missing source has no rows. *)
Definition sources (fs : Database.Files cell) : list (Database.Row cell) :=
  Database._load_csv fs "igs_data.csv" ++ Database._load_csv fs "igs_data_extra.csv".

Definition row_id (row : Database.Row cell) : string :=
  Database.tract_id_clean clean (Database.row_census_tract row).

Context {score : Type}.
Variable float : cell → option score.

(** "The four scores coerced to floating point": each of them can be. *)
Definition scores_ok (row : Database.Row cell) : Prop :=
  is_Some (float (Database.row_inclusion_score row)) ∧
  is_Some (float (Database.row_growth_score row)) ∧
  is_Some (float (Database.row_economy_score row)) ∧
  is_Some (float (Database.row_community_score row)).

(** 4e: the record of a kept row. *)
Definition record_of (p : string * Database.Row cell)
    : option (Database.CensusTract score) :=
  Database.make_tract float p.1 p.2.

End Dedup.

End Spec.

(** ** What is assumed of the libraries

    The contracts of [jose.jwt] and of passlib's bcrypt context that the
    properties of the token flow rest on. Each is a hypothesis of the theorems
    that use it, never a fact of the model. *)

Module Lib.

(** Claims [jwt.decode] accepts at time [now]: only [sub] and [exp], [sub] a
    text, [exp] a time that has not passed. *)
Definition claims_accepted (claims : gmap string jvalue) (now : Z) : Prop :=
  dom claims ⊆ ({["sub"; "exp"]} : gset string) ∧
  (∀ v, claims !! "sub" = Some v → ∃ s, v = JStr s) ∧
  (∀ v, claims !! "exp" = Some v → ∃ e, v = JInt e ∧ (now ≤ e)%Z).

Section Jose.

Context {token : Type}.
Variable jwt_encode : gmap string jvalue → string → string → token.
Variable jwt_decode : token → string → list string → Z → option (gmap string jvalue).

(** A token decodes, under the key and algorithm that made it, to the claims
    it was made from, when these are acceptable. *)
Definition jose_round_trip : Prop :=
  ∀ claims key alg now,
    claims_accepted claims now →
    jwt_decode (jwt_encode claims key alg) key [alg] now = Some claims.

(** Whatever decodes an encoded token returns the claims that were encoded. *)
Definition jose_decodes_encoded : Prop :=
  ∀ claims key alg key' algs now claims',
    jwt_decode (jwt_encode claims key alg) key' algs now = Some claims' →
    claims' = claims.

(** [jwt.decode] raises on a token whose [exp] has passed. *)
Definition jose_checks_expiry : Prop :=
  ∀ tok key algs now claims e,
    jwt_decode tok key algs now = Some claims →
    claims !! "exp" = Some (JInt e) → (now ≤ e)%Z.

End Jose.

(** What the compact form of a token holds, read without any key: the
    algorithm its header names and the claims of its payload. *)
Record Jws : Type := {
  jws_alg : string;
  jws_claims : gmap string jvalue
}.

Section JoseDecode.

Context {token : Type}.
Variable jwt_encode : gmap string jvalue → string → string → token.
Variable jwt_decode : token → string → list string → Z → option (gmap string jvalue).

(** [jws_parse tok]: the header and the payload of [tok]; [None] when the
    text is not three base64url segments, the header is no JSON object that
    names an algorithm, or the payload is no JSON object. *)
Variable jws_parse : token → option Jws.

(** [jws_verify tok key]: the third segment of [tok] is the signature of the
    first two under [key] and the algorithm of the header. *)
Variable jws_verify : token → string → bool.

(** [claims_validate claims now]: jose's check of the registered claims
    ([exp] among them) of a payload at the clock [now] passes. *)
Variable claims_validate : gmap string jvalue → Z → bool.

(** [jwt.decode] returns the claims of the payload when the text is a token,
    the algorithm of its header is one of those allowed, the signature
    verifies under the key and the claims pass validation; in every other
    case it raises [JWTError]. *)
Definition jose_decode_spec : Prop :=
  ∀ tok key algs now,
    jwt_decode tok key algs now =
      match jws_parse tok with
      | None => None
      | Some j =>
          if bool_decide (jws_alg j ∈ algs) && jws_verify tok key &&
             claims_validate (jws_claims j) now
          then Some (jws_claims j)
          else None
      end.

(** Validation refuses claims whose [exp] has passed. *)
Definition jose_validates_expiry : Prop :=
  ∀ claims now e,
    claims_validate claims now = true →
    claims !! "exp" = Some (JInt e) → (now ≤ e)%Z.

(** The token [jwt.encode] makes holds the algorithm and the claims it was
    given. *)
Definition jose_encode_spec : Prop :=
  ∀ claims key alg,
    jws_parse (jwt_encode claims key alg) =
      Some {| jws_alg := alg; jws_claims := claims |}.

End JoseDecode.

(** The password holds a NUL byte. *)
Definition has_nul (p : string) : bool := Str.contains "000"%char p.

(** A password bcrypt takes whole: no NUL byte, at most 72 bytes (a
    character of a [string] is a byte). *)
Definition plain_password (p : string) : Prop :=
  has_nul p = false ∧ String.length p ≤ 72.

Section Passlib.

Context {digest : Type}.
Variable pwd_hash : string → digest.
Variable pwd_verify : string → digest → result bool.

(** Against a hash that [hash] made, [verify] raises [PasswordValueError]
    on a password with a NUL byte. *)
Definition passlib_rejects_nul : Prop :=
  ∀ p q, has_nul p = true → plain_password q →
         pwd_verify p (pwd_hash q) = Raise PasswordValueError.

(** Among the passwords bcrypt takes whole, a password verifies against a
    hash exactly when it is the password that was hashed: bcrypt taken as
    free of collisions. *)
Definition passlib_verifies : Prop :=
  ∀ p q, plain_password p → plain_password q →
         pwd_verify p (pwd_hash q) = Return (bool_decide (p = q)).

End Passlib.

End Lib.

(** ** Stand-ins for the third-party functions

    Small computable instances of the parameters, used to run the model on
    concrete inputs. They are not models of the libraries. *)

Module Sample.

(** A sanitizer that deletes the characters [<] and [>]. *)
Fixpoint clean (s : string) : string :=
  match s with
  | EmptyString => EmptyString
  | String c r =>
      if Ascii.eqb c "<"%char || Ascii.eqb c ">"%char then clean r
      else String c (clean r)
  end.

(** A cell is a number or some text that is not one. *)
Inductive cell : Type :=
| Num (z : Z)
| NotANumber (s : string).

Definition float (c : cell) : option Z :=
  match c with
  | Num z => Some z
  | NotANumber _ => None
  end.

Definition row (id : string) (a b c d : cell) : Database.Row cell :=
  {| Database.row_census_tract := id;
     Database.row_inclusion_score := a; Database.row_growth_score := b;
     Database.row_economy_score := c; Database.row_community_score := d |}.

Definition tract (id : string) (a b c d : Z) : Database.CensusTract Z :=
  {| Database.census_tract := id;
     Database.inclusion_score := a; Database.growth_score := b;
     Database.economy_score := c; Database.community_score := d |}.

(** One primary file with one row. *)
Definition one_file : Database.Files cell :=
  {[ "igs_data.csv" := [row "6037102107.0" (Num 61) (Num 52) (Num 43) (Num 70)] ]}.

(** The second row repeats the identifier of the first and has a score that
    is no number. *)
Definition duplicate_bad_file : Database.Files cell :=
  {[ "igs_data.csv" :=
       [row "06037102107" (Num 61) (Num 52) (Num 43) (Num 70);
        row "06037102107" (NotANumber "abc") (Num 1) (Num 2) (Num 3)] ]}.

(** The second row has a new identifier and a score that is no number. *)
Definition fresh_bad_file : Database.Files cell :=
  {[ "igs_data.csv" :=
       [row "06037102107" (Num 61) (Num 52) (Num 43) (Num 70);
        row "06037102108" (Num 1) (NotANumber "abc") (Num 2) (Num 3)] ]}.

(** An identifier of 12 digits. *)
Definition long_id_file : Database.Files cell :=
  {[ "igs_data.csv" := [row "123456789012" (Num 61) (Num 52) (Num 43) (Num 70)] ]}.

(** Two files that share an identifier, with different scores. *)
Definition overlapping_files : Database.Files cell :=
  {[ "igs_data.csv" :=
       [row "6037102107" (Num 61) (Num 52) (Num 43) (Num 70);
        row "6037102108" (Num 10) (Num 20) (Num 30) (Num 40)];
     "igs_data_extra.csv" :=
       [row "6037102107.0" (Num 0) (Num 0) (Num 0) (Num 0);
        row "6037102109" (Num 11) (Num 21) (Num 31) (Num 41)] ]}.

(** A token in the clear: the claims with the key and algorithm that signed
    them. *)
Record token : Type := {
  tok_claims : gmap string jvalue;
  tok_key : string;
  tok_alg : string
}.

Definition jwt_encode (claims : gmap string jvalue) (key alg : string) : token :=
  {| tok_claims := claims; tok_key := key; tok_alg := alg |}.

Definition jwt_decode (t : token) (key : string) (algs : list string) (now : Z)
    : option (gmap string jvalue) :=
  if negb (bool_decide (tok_key t = key)) then None
  else if negb (bool_decide (tok_alg t ∈ algs)) then None
  else match tok_claims t !! "exp" with
       | Some (JInt e) => if (e <? now)%Z then None else Some (tok_claims t)
       | Some (JStr _) => None
       | None => Some (tok_claims t)
       end.

(** A password "hash" that keeps the password. *)
Definition pwd_hash (p : string) : string := p.
Definition pwd_verify (p : string) (h : string) : result bool :=
  if Str.contains "000"%char p then Raise PasswordValueError
  else Return (bool_decide (p = h)).

(** The configuration by default. *)
Definition SECRET_KEY : string := "change-me-for-real-use".
Definition ALGORITHM : string := "HS256".
Definition ACCESS_TOKEN_EXPIRE_MINUTES : Z := 30.

(** The token [create_access_token({"sub": "admin"})] makes at time [now]. *)
Definition admin_token (now : Z) : token :=
  Main.create_access_token jwt_encode SECRET_KEY ALGORITHM
    ACCESS_TOKEN_EXPIRE_MINUTES {[ "sub" := JStr "admin" ]} now.

(** A table of two records. *)
Definition two_tracts : list (Database.CensusTract Z) :=
  [tract "06037102107" 61 52 43 70; tract "06037102108" 10 20 30 40].

End Sample.

(** ** main.py, continued: the response models and the listing route *)

Module Api.

(** What a route ends with besides a value: an exception of the route or of
    its dependency, pydantic's [ValidationError] raised by a call of
    [CensusTractModel(...)], or FastAPI's refusal of a returned value that
    does not fit the route's [response_model]. *)
Inductive error : Type :=
| Http (e : exn)
| ValidationError
| ResponseValidationError.

Inductive outcome (A : Type) : Type :=
| Responds (a : A)
| Fails (e : error).
Arguments Responds {A} a.
Arguments Fails {A} e.

Section Model.

Context {score token digest : Type}.

(** [nh3.clean]. *)
Variable clean : string → string.

Variable jwt_decode : token → string → list string → Z → option (gmap string jvalue).
Variable pwd_hash : string → digest.
Variables SECRET_KEY ALGORITHM : string.

(** The constraint [ge=0, le=100] of a score field, on a Python float. *)
Variable in_range : score → bool.

(** The constraints of [CensusTractModel] (lines 37-42): [census_tract] of at
    most 11 characters, each score within 0 and 100. *)
Definition fits_model (t : Database.CensusTract score) : bool :=
  (String.length (Database.census_tract t) <=? 11) &&
  in_range (Database.inclusion_score t) &&
  in_range (Database.growth_score t) &&
  in_range (Database.economy_score t) &&
  in_range (Database.community_score t).

(** [CensusTractModel(census_tract=..., ...)]: the model, or [None] when the
    call raises [ValidationError]. *)
Definition CensusTractModel (census_tract : string)
    (inclusion_score growth_score economy_score community_score : score)
    : option (Database.CensusTract score) :=
  let m := {| Database.census_tract := census_tract;
              Database.inclusion_score := inclusion_score;
              Database.growth_score := growth_score;
              Database.economy_score := economy_score;
              Database.community_score := community_score |} in
  if fits_model m then Some m else None.

(** The four score constraints alone. *)
Definition scores_in_range (t : Database.CensusTract score) : bool :=
  in_range (Database.inclusion_score t) &&
  in_range (Database.growth_score t) &&
  in_range (Database.economy_score t) &&
  in_range (Database.community_score t).

(** A record as both routes send it: the identifier through [nh3.clean], the
    scores as stored. *)
Definition sanitized (t : Database.CensusTract score) : Database.CensusTract score :=
  {| Database.census_tract := clean (Database.census_tract t);
     Database.inclusion_score := Database.inclusion_score t;
     Database.growth_score := Database.growth_score t;
     Database.economy_score := Database.economy_score t;
     Database.community_score := Database.community_score t |}.

(** [get_tracts] (lines 99-117), its dependency [get_current_user] resolved
    first; the list comprehension builds the models in the order of the
    table and stops at the first that is refused. *)
Definition get_tracts (tok : token) (now : Z) (db : list (Database.CensusTract score))
    : outcome (list (Database.CensusTract score)) :=
  match Main.get_current_user jwt_decode pwd_hash SECRET_KEY ALGORITHM tok now with
  | Raise e => Fails (Http e)
  | Return current_user =>
      let tracts := db in
      match mapM (λ t, CensusTractModel
                         (clean (Database.census_tract t))
                         (Database.inclusion_score t)
                         (Database.growth_score t)
                         (Database.economy_score t)
                         (Database.community_score t)) tracts with
      | Some models => Responds models
      | None => Fails ValidationError
      end
  end.

(** The route [/tracts/{census_tract}] (lines 120-151): [get_single_tract],
    then the dictionary it returns is checked against
    [response_model=CensusTractModel]. *)
Definition get_single_tract_response (census_tract : string) (tok : token) (now : Z)
    (db : list (Database.CensusTract score)) : outcome (Database.CensusTract score) :=
  match Main.get_single_tract clean jwt_decode pwd_hash SECRET_KEY ALGORITHM
          census_tract tok now db with
  | Raise e => Fails (Http e)
  | Return tract_dict =>
      match CensusTractModel
              (Database.census_tract tract_dict)
              (Database.inclusion_score tract_dict)
              (Database.growth_score tract_dict)
              (Database.economy_score tract_dict)
              (Database.community_score tract_dict) with
      | Some m => Responds m
      | None => Fails ResponseValidationError
      end
  end.

End Model.

End Api.

(** ** dashboard.py *)

Module Dashboard.

(** Lines 118-132. *)
Definition low_income_tracts : gset string :=
  {[ "06037102107"; "06065045117"; "06059099251"; "06001400300"; "06073008339" ]}.

Definition high_income_tracts : gset string :=
  {[ "06085511712"; "06075010200"; "06041110100"; "06013355102"; "06059062610" ]}.

Section Model.

(** [num]: the numbers of the score columns, with Python's [0], [+] and
    [/ n] for a length [n]; [None] is [ZeroDivisionError]. *)
Context {num : Type}.
Variable zero : num.
Variable add : num → num → num.
Variable div : num → nat → option num.

(** Lines 135-145: the inclusion scores of the rows of [df] whose identifier
    is in the set. *)
Definition inclusion_scores_of (group : gset string)
    (df : list (Database.CensusTract num)) : list num :=
  Database.inclusion_score <$>
    filter (λ row, Database.census_tract row ∈ group) df.

Definition low_inclusion_scores (df : list (Database.CensusTract num)) : list num :=
  inclusion_scores_of low_income_tracts df.

Definition high_inclusion_scores (df : list (Database.CensusTract num)) : list num :=
  inclusion_scores_of high_income_tracts df.

(** [sum(values)]: from [0], left to right. *)
Definition sum (values : list num) : num := foldl add zero values.

(** Lines 147-148. *)
Definition safe_avg (values : list num) : option num :=
  match values with
  | [] => Some zero
  | _ :: _ => div (sum values) (length values)
  end.

End Model.

End Dashboard.

(** ** More stand-ins *)

Module Fixture.

(** A score is in range when it lies within 0 and 100. *)
Definition in_range (z : Z) : bool := (0 <=? z)%Z && (z <=? 100)%Z.

(** Whole-number division, refused for the divisor 0. *)
Definition div (z : Z) (n : nat) : option Z :=
  match n with
  | O => None
  | S _ => Some (z / Z.of_nat n)%Z
  end.

(** A frame of two rows, and the frames of its first and of its second row. *)
Definition joined_file : Database.Files Sample.cell :=
  {[ "igs_data.csv" :=
       [Sample.row "6037102107" (Sample.Num 61) (Sample.Num 52) (Sample.Num 43) (Sample.Num 70);
        Sample.row "6037102108" (Sample.Num 10) (Sample.Num 20) (Sample.Num 30) (Sample.Num 40)] ]}.

Definition first_file : Database.Files Sample.cell :=
  {[ "igs_data.csv" :=
       [Sample.row "6037102107" (Sample.Num 61) (Sample.Num 52) (Sample.Num 43) (Sample.Num 70)] ]}.

Definition second_file : Database.Files Sample.cell :=
  {[ "igs_data.csv" :=
       [Sample.row "6037102108" (Sample.Num 10) (Sample.Num 20) (Sample.Num 30) (Sample.Num 40)] ]}.

(** A table with a score of 250. *)
Definition out_of_range_tracts : list (Database.CensusTract Z) :=
  [Sample.tract "06037102107" 61 52 43 70; Sample.tract "06037102108" 250 20 30 40].

#[local] Instance jvalue_eq_dec : EqDecision jvalue.
Proof. solve_decision. Defined.

(** A signature in the clear: the key, the algorithm and the claims it was
    made for. *)
Record mac : Type := {
  mac_key : string;
  mac_alg : string;
  mac_claims : gmap string jvalue
}.

#[local] Instance mac_eq_dec : EqDecision mac.
Proof. solve_decision. Defined.

(** The text of a token: no token at all, or a header's algorithm, a payload
    and a signature. *)
Inductive jws_token : Type :=
| Garbage (text : string)
| Compact (alg : string) (claims : gmap string jvalue) (signature : mac).

Definition sign (key alg : string) (claims : gmap string jvalue) : mac :=
  {| mac_key := key; mac_alg := alg; mac_claims := claims |}.

Definition jws_parse (t : jws_token) : option Lib.Jws :=
  match t with
  | Garbage _ => None
  | Compact alg claims _ => Some {| Lib.jws_alg := alg; Lib.jws_claims := claims |}
  end.

Definition jws_verify (t : jws_token) (key : string) : bool :=
  match t with
  | Garbage _ => false
  | Compact alg claims signature => bool_decide (signature = sign key alg claims)
  end.

(** [exp], when present, is a time that has not passed; [sub], when present,
    is a text. *)
Definition claims_validate (claims : gmap string jvalue) (now : Z) : bool :=
  match claims !! "exp" with
  | Some (JInt e) => (now <=? e)%Z
  | Some (JStr _) => false
  | None => true
  end &&
  match claims !! "sub" with
  | Some (JInt _) => false
  | _ => true
  end.

Definition jwt_encode (claims : gmap string jvalue) (key alg : string) : jws_token :=
  Compact alg claims (sign key alg claims).

Definition jwt_decode (t : jws_token) (key : string) (algs : list string) (now : Z)
    : option (gmap string jvalue) :=
  match jws_parse t with
  | None => None
  | Some j =>
      if bool_decide (Lib.jws_alg j ∈ algs) && jws_verify t key &&
         claims_validate (Lib.jws_claims j) now
      then Some (Lib.jws_claims j)
      else None
  end.

(** Claims for ["admin"] that expire at 5000. *)
Definition admin_claims : gmap string jvalue :=
  <["exp" := JInt 5000]> {[ "sub" := JStr "admin" ]}.

(** The token the service makes for them. *)
Definition issued_token : jws_token :=
  jwt_encode admin_claims Sample.SECRET_KEY Sample.ALGORITHM.

(** The same claims signed with another key. *)
Definition forged_token : jws_token :=
  jwt_encode admin_claims "guessed-key" Sample.ALGORITHM.

(** A token issued for ["guest"] whose payload was changed to name
    ["admin"]. *)
Definition tampered_token : jws_token :=
  Compact Sample.ALGORITHM admin_claims
    (sign Sample.SECRET_KEY Sample.ALGORITHM
       (<["exp" := JInt 5000]> {[ "sub" := JStr "guest" ]})).

(** A token of the service for a username it does not know. *)
Definition guest_token : jws_token :=
  jwt_encode (<["exp" := JInt 5000]> {[ "sub" := JStr "guest" ]})
    Sample.SECRET_KEY Sample.ALGORITHM.

End Fixture.

Example split_float_text : Str.split "."%char "6037102107.0" = ["6037102107"; "0"].
Proof. reflexivity. Qed.

Example zfill_signed : Str.zfill 5 "-42" = "-0042".
Proof. reflexivity. Qed.

Example init_db_two_rows :
  Database.init_db Sample.clean Sample.float
    {[ "igs_data.csv" := [Sample.row "6037102107.0" (Sample.Num 1) (Sample.Num 2) (Sample.Num 3) (Sample.Num 4);
                          Sample.row "6037102107" (Sample.Num 5) (Sample.Num 6) (Sample.Num 7) (Sample.Num 8)] ]} []
  = (Return PyNone,
     [ {| Database.census_tract := "06037102107"; Database.inclusion_score := 1%Z;
          Database.growth_score := 2%Z; Database.economy_score := 3%Z;
          Database.community_score := 4%Z |} ]).
Proof. vm_compute. reflexivity. Qed.

(** * Properties *)

(** ** Strings *)

Section StrFacts.

Lemma append_cons c (a b : string) : String c a +:+ b = String c (a +:+ b).
Proof. reflexivity. Qed.

Lemma length_append (a b : string) :
  String.length (a +:+ b) = String.length a + String.length b.
Proof.
  induction a as [|c a IH]; [done |].
  rewrite append_cons. simpl. by rewrite IH.
Qed.

Lemma append_empty_r (a : string) : a +:+ "" = a.
Proof.
  induction a as [|c a IH]; [done |]. by rewrite append_cons, IH.
Qed.

Lemma length_zeros n : String.length (Str.zeros n) = n.
Proof. induction n as [|n IH]; simpl; [done | by rewrite IH]. Qed.

Lemma all_digits_append a b :
  Str.all_digits (a +:+ b) = Str.all_digits a && Str.all_digits b.
Proof.
  induction a as [|c a IH]; [done |].
  rewrite append_cons. simpl. by rewrite IH, andb_assoc.
Qed.

Lemma all_digits_zeros n : Str.all_digits (Str.zeros n) = true.
Proof. induction n as [|n IH]; simpl; done. Qed.

(** [zfill] never shortens, and pads up to the width. *)
Lemma length_zfill w s :
  String.length (Str.zfill w s) = w `max` String.length s.
Proof.
  unfold Str.zfill. destruct (Nat.leb_spec w (String.length s)) as [Hle|Hlt].
  - lia.
  - destruct s as [|c r]; simpl in *.
    + rewrite length_zeros. lia.
    + destruct (Str.is_sign c); simpl;
        rewrite length_append, length_zeros; simpl; lia.
Qed.

(** On a string without a leading sign that fits the width, [zfill] is the
    specification's left-pad. *)
Lemma zfill_left_pad w s :
  String.length s ≤ w →
  (∀ c r, s = String c r → Str.is_sign c = false) →
  Str.zfill w s = Spec.left_pad w s.
Proof.
  intros Hlen Hsign. unfold Str.zfill, Spec.left_pad.
  destruct (Nat.leb_spec w (String.length s)) as [Hle|Hlt].
  - replace (w - String.length s) with 0 by lia. done.
  - destruct s as [|c r]; simpl.
    + by rewrite append_empty_r.
    + by rewrite (Hsign c r eq_refl).
Qed.

Lemma all_digits_no_sign s c r :
  Str.all_digits s = true → s = String c r → Str.is_sign c = false.
Proof.
  intros Hd ->. simpl in Hd. apply andb_true_iff in Hd as [Hc _].
  unfold Str.is_sign.
  apply orb_false_iff; split; apply Ascii.eqb_neq; intros ->; discriminate Hc.
Qed.

Lemma split_head s :
  ∃ ws, Str.split "."%char s = Spec.truncate_at_point s :: ws.
Proof.
  induction s as [|d r [ws IH]]; simpl; [by eexists |].
  destruct (Ascii.eqb d "."); [by eexists |].
  rewrite IH. by eexists.
Qed.

Lemma truncate_no_point s :
  Str.contains "."%char s = false → Spec.truncate_at_point s = s.
Proof.
  induction s as [|d r IH]; simpl; [done |].
  destruct (Ascii.eqb d "."); [done |]. intros H. by rewrite IH.
Qed.

(** Lines 70-77 compute the specification's steps 4a and 4b with [zfill] in
    the place of the left-pad. *)
Lemma tract_id_padded_eq raw :
  Database.tract_id_padded raw = Str.zfill 11 (Spec.truncate_at_point raw).
Proof.
  unfold Database.tract_id_padded.
  destruct (Str.contains "." raw) eqn:Hc.
  - destruct (split_head raw) as [ws ->]. done.
  - by rewrite truncate_no_point.
Qed.

End StrFacts.

(** ** The ingestion run *)

Section IngestFacts.

Context {cell score : Type}.
Variable clean : string → string.
Variable float : cell → option score.

Local Abbreviation Row := (Database.Row cell).
Local Abbreviation CensusTract := (Database.CensusTract score).
Local Abbreviation row_id := (Spec.row_id clean).
Local Abbreviation kept_rows := (Spec.kept_rows clean).
Local Abbreviation record_of := (Spec.record_of float).
Local Abbreviation add_rows := (Database.add_rows clean float).
Local Abbreviation init_db := (Database.init_db clean float).

Implicit Types (rows : list Row) (db : list CensusTract) (seen : gset string).

Lemma make_tract_id i row (t : CensusTract) :
  Database.make_tract float i row = Some t → Database.census_tract t = i.
Proof.
  unfold Database.make_tract. intros H.
  repeat (apply bind_Some in H as (? & _ & H)). by injection H as <-.
Qed.

Lemma make_tract_is_Some i row :
  is_Some (Database.make_tract float i row) ↔ Spec.scores_ok float row.
Proof.
  unfold Database.make_tract, Spec.scores_ok. split.
  - intros [t H].
    apply bind_Some in H as (a & Ha & H). apply bind_Some in H as (b & Hb & H).
    apply bind_Some in H as (c & Hc & H). apply bind_Some in H as (d & Hd & H).
    rewrite Ha, Hb, Hc, Hd. eauto.
  - intros ([a Ha] & [b Hb] & [c Hc] & [d Hd]).
    rewrite Ha, Hb, Hc, Hd. simpl. eauto.
Qed.

(** The loop keeps the rows the dedup rule keeps, in order, and stops at the
    first of them whose scores do not coerce. *)
Lemma add_rows_spec rows seen (pending : list CensusTract) :
  add_rows rows seen pending =
    match mapM record_of (kept_rows seen rows) with
    | Some ts => Return (pending ++ ts)
    | None => Raise ValueError
    end.
Proof.
  revert seen pending. induction rows as [|row rest IH]; intros seen pending; simpl.
  - by rewrite app_nil_r.
  - set (i := Database.tract_id_clean clean (Database.row_census_tract row)).
    destruct (decide (i ∈ seen)) as [Hin|Hin]; [apply IH |].
    simpl. change (Spec.record_of float (i, row)) with (Database.make_tract float i row).
    destruct (Database.make_tract float i row) as [t|]; simpl; [|done].
    rewrite IH. destruct (mapM _ _); simpl; [|done].
    by rewrite <- app_assoc.
Qed.

Lemma kept_rows_fresh seen rows p : p ∈ kept_rows seen rows → p.1 ∉ seen.
Proof.
  revert seen. induction rows as [|row rest IH]; intros seen; simpl.
  - by intros ?%elem_of_nil.
  - destruct (decide (_ ∈ seen)) as [Hin|Hin]; [apply IH |].
    intros [->|Hp%IH]%elem_of_cons; [done | set_solver].
Qed.

Lemma kept_rows_NoDup seen rows : NoDup (kept_rows seen rows).*1.
Proof.
  revert seen. induction rows as [|row rest IH]; intros seen; simpl.
  - constructor.
  - destruct (decide (_ ∈ seen)) as [Hin|Hin]; [apply IH |].
    rewrite fmap_cons. apply NoDup_cons. split; [|apply IH].
    intros (p & Heq & Hp%kept_rows_fresh)%list_elem_of_fmap.
    simpl in Heq. set_solver.
Qed.

(** A row is kept exactly when its identifier is neither in the seen-set nor
    the identifier of a row before it. *)
Lemma kept_rows_elem seen rows i row :
  (i, row) ∈ kept_rows seen rows ↔
  ∃ pre post, rows = pre ++ row :: post ∧ i = row_id row ∧ i ∉ seen ∧
              i ∉ (row_id <$> pre).
Proof.
  split.
  - revert seen. induction rows as [|row0 rest IH]; intros seen; simpl.
    + by intros ?%elem_of_nil.
    + fold (row_id row0). destruct (decide (row_id row0 ∈ seen)) as [Hin|Hin].
      * intros (pre & post & -> & -> & Hs & Hpre)%IH.
        exists (row0 :: pre), post. rewrite fmap_cons.
        split_and!; [done | done | done |].
        apply not_elem_of_cons. split; [congruence | done].
      * intros [[= -> ->]|(pre & post & -> & -> & Hs & Hpre)%IH]%elem_of_cons.
        -- exists [], rest. rewrite fmap_nil.
           split_and!; [done | done | done | apply not_elem_of_nil].
        -- exists (row0 :: pre), post. rewrite fmap_cons.
           apply not_elem_of_union in Hs as [Hne%not_elem_of_singleton Hs].
           split_and!; [done | done | done |].
           apply not_elem_of_cons. split; [congruence | done].
  - intros (pre & post & -> & -> & Hs & Hpre). revert seen Hs.
    induction pre as [|row0 pre IH]; intros seen Hs; simpl.
    + fold (row_id row). rewrite decide_False by done. apply elem_of_cons. by left.
    + rewrite fmap_cons in Hpre. apply not_elem_of_cons in Hpre as [Hne Hpre].
      fold (row_id row0). destruct (decide (row_id row0 ∈ seen)) as [Hin|Hin].
      * by apply IH.
      * apply elem_of_cons. right. apply IH; [done |].
        apply not_elem_of_union. split; [|done]. by apply not_elem_of_singleton.
Qed.

Lemma kept_rows_ids seen rows i :
  i ∈ (kept_rows seen rows).*1 ↔ i ∈ (row_id <$> rows) ∧ i ∉ seen.
Proof.
  revert seen. induction rows as [|row rest IH]; intros seen.
  - simpl. rewrite !elem_of_nil. tauto.
  - rewrite fmap_cons, elem_of_cons.
    change (kept_rows seen (row :: rest)) with
      (if decide (row_id row ∈ seen) then kept_rows seen rest
       else (row_id row, row) :: kept_rows ({[row_id row]} ∪ seen) rest).
    destruct (decide (row_id row ∈ seen)) as [Hin|Hin].
    + rewrite IH. split; [tauto |]. intros [[->|Hi] Hs]; [done | tauto].
    + rewrite fmap_cons, elem_of_cons, IH, not_elem_of_union, not_elem_of_singleton.
      simpl. split.
      * intros [->|(Hi & Hne & Hs)]; tauto.
      * intros [[->|Hi] Hs]; [tauto |].
        destruct (decide (i = row_id row)); tauto.
Qed.

Lemma mapM_record_ids (ps : list (string * Row)) (ts : list CensusTract) :
  mapM record_of ps = Some ts → Database.tract_ids ts = ps.*1.
Proof.
  intros H%mapM_Some_1. unfold Database.tract_ids.
  induction H as [|p t ps ts Hp _ IH]; [done |].
  rewrite !fmap_cons, IH. f_equal. by apply make_tract_id in Hp.
Qed.

(** Records whose identifiers are new and pairwise distinct pass the UNIQUE
    constraint. *)
Lemma commit_fresh db (ts : list CensusTract) :
  NoDup (Database.tract_ids ts) →
  (∀ i, i ∈ Database.tract_ids ts → i ∉ Database.tract_ids db) →
  Database.commit db ts = Some (db ++ ts).
Proof.
  revert db. induction ts as [|t ts IH]; intros db Hnd Hfresh; simpl.
  - by rewrite app_nil_r.
  - unfold Database.tract_ids in *. rewrite fmap_cons in Hnd, Hfresh.
    apply NoDup_cons in Hnd as [Ht Hnd].
    rewrite decide_False by (apply Hfresh; set_solver).
    rewrite IH; [by rewrite <- app_assoc | done |].
    intros i Hi. rewrite fmap_app. set_solver.
Qed.

Lemma combined_sources (fs : Database.Files cell) :
  concat
    match Database._load_csv fs "igs_data_extra.csv" with
    | [] => [Database._load_csv fs "igs_data.csv"]
    | _ :: _ => [Database._load_csv fs "igs_data.csv";
                 Database._load_csv fs "igs_data_extra.csv"]
    end = Spec.sources fs.
Proof.
  unfold Spec.sources.
  destruct (Database._load_csv fs "igs_data_extra.csv"); simpl;
    by rewrite !app_nil_r.
Qed.

(** [init_db] as one equation: the records of the kept rows are appended to
    the table, unless one of these rows has a score that does not coerce; the
    UNIQUE constraint never fires. *)
Lemma init_db_spec (fs : Database.Files cell) db :
  init_db fs db =
    match mapM record_of
            (kept_rows (list_to_set (Database.tract_ids db)) (Spec.sources fs)) with
    | Some ts => (Return PyNone, db ++ ts)
    | None => (Raise ValueError, db)
    end.
Proof.
  unfold Database.init_db. rewrite combined_sources, add_rows_spec.
  destruct (mapM _ _) as [ts|] eqn:Hts; [|done].
  simpl. rewrite commit_fresh; [done | |].
  - rewrite (mapM_record_ids _ _ Hts). apply kept_rows_NoDup.
  - intros i. rewrite (mapM_record_ids _ _ Hts).
    intros (p & -> & Hp%kept_rows_fresh)%list_elem_of_fmap. set_solver.
Qed.

Lemma kept_rows_cons_fresh seen row rows :
  row_id row ∉ seen →
  kept_rows seen (row :: rows) =
    (row_id row, row) :: kept_rows ({[row_id row]} ∪ seen) rows.
Proof. intros H. simpl. fold (row_id row). by rewrite decide_False. Qed.

Lemma kept_rows_cons_seen seen row rows :
  row_id row ∈ seen → kept_rows seen (row :: rows) = kept_rows seen rows.
Proof. intros H. simpl. fold (row_id row). by rewrite decide_True. Qed.

Lemma kept_rows_all_seen seen rows :
  (∀ row, row ∈ rows → row_id row ∈ seen) → kept_rows seen rows = [].
Proof.
  induction rows as [|row rest IH]; intros Hall; simpl; [done |].
  fold (row_id row). rewrite decide_True by (apply Hall; left).
  apply IH. intros r Hr. apply Hall. by right.
Qed.

Lemma kept_rows_app seen rows1 rows2 :
  kept_rows seen (rows1 ++ rows2) =
    kept_rows seen rows1 ++
    kept_rows (list_to_set (row_id <$> rows1) ∪ seen) rows2.
Proof.
  revert seen. induction rows1 as [|row rest IH]; intros seen.
  - simpl. by rewrite (left_id_L ∅ (∪)).
  - rewrite <- app_comm_cons, fmap_cons.
    destruct (decide (row_id row ∈ seen)) as [Hin|Hin].
    + rewrite !kept_rows_cons_seen, IH by done. do 2 f_equal.
      apply set_eq. intros i. rewrite list_to_set_cons, !elem_of_union, elem_of_singleton.
      split; [tauto |]. intros [[->|?]|?]; tauto.
    + rewrite !kept_rows_cons_fresh, IH by done. rewrite <- app_comm_cons.
      do 3 f_equal.
      apply set_eq. intros i. rewrite list_to_set_cons, !elem_of_union. tauto.
Qed.

(** Rows that repeat the rows before them add nothing. *)
Lemma kept_rows_twice seen rows :
  kept_rows seen (rows ++ rows) = kept_rows seen rows.
Proof.
  rewrite kept_rows_app.
  rewrite (kept_rows_all_seen (list_to_set (row_id <$> rows) ∪ seen) rows);
    [by rewrite app_nil_r |].
  intros row Hrow. apply elem_of_union_l, elem_of_list_to_set.
  apply list_elem_of_fmap. by exists row.
Qed.

Lemma kept_rows_subseteq seen rows p : p ∈ kept_rows seen rows → p.2 ∈ rows.
Proof.
  destruct p as [i row]. intros (pre & post & -> & _)%kept_rows_elem. simpl.
  apply elem_of_app. right. left.
Qed.

Lemma kept_rows_fst seen rows p : p ∈ kept_rows seen rows → p.1 = row_id p.2.
Proof. destruct p as [i row]. by intros (pre & post & _ & -> & _)%kept_rows_elem. Qed.

Lemma record_of_is_Some (p : string * Row) :
  is_Some (record_of p) ↔ Spec.scores_ok float p.2.
Proof. apply make_tract_is_Some. Qed.

(** The outcome of a run, by cases on the kept rows. *)
Lemma init_db_cases (fs : Database.Files cell) db :
  (∃ ts, mapM record_of
           (kept_rows (list_to_set (Database.tract_ids db)) (Spec.sources fs)) = Some ts ∧
         init_db fs db = (Return PyNone, db ++ ts)) ∨
  (mapM record_of
     (kept_rows (list_to_set (Database.tract_ids db)) (Spec.sources fs)) = None ∧
   init_db fs db = (Raise ValueError, db)).
Proof.
  rewrite init_db_spec. destruct (mapM _ _) as [ts|]; [left; eauto | right; eauto].
Qed.

End IngestFacts.

(** ** Claims about the ingestion run *)

Section IngestClaims.

Context {cell score : Type}.
Variable clean : string → string.
Variable float : cell → option score.

Local Abbreviation Row := (Database.Row cell).
Local Abbreviation CensusTract := (Database.CensusTract score).
Local Abbreviation row_id := (Spec.row_id clean).
Local Abbreviation kept_rows := (Spec.kept_rows clean).
Local Abbreviation record_of := (Spec.record_of float).
Local Abbreviation init_db := (Database.init_db clean float).

Implicit Types (rows : list Row) (db : list CensusTract) (fs : Database.Files cell).

Lemma kept_count fs db :
  length (kept_rows (list_to_set (Database.tract_ids db)) (Spec.sources fs)) =
  size (list_to_set (row_id <$> Spec.sources fs) ∖
        list_to_set (Database.tract_ids db) : gset string).
Proof.
  rewrite <- (length_fmap fst).
  rewrite <- (size_list_to_set (C:=gset string)) by apply kept_rows_NoDup.
  f_equal. apply set_eq. intros i.
  rewrite elem_of_difference, !elem_of_list_to_set, kept_rows_ids.
  by rewrite elem_of_list_to_set.
Qed.

(** C1, as amended. [init_db] evaluates to [None], never to a count. When the
    scores of every row coerce, the run succeeds, the table grows at its end,
    and the number of records added is the number of distinct cleaned
    identifiers of the sources that the table did not hold. *)
Theorem init_db_returns_None fs db :
  Forall (Spec.scores_ok float) (Spec.sources fs) →
  ∃ inserted,
    init_db fs db = (Return PyNone, db ++ inserted) ∧
    length inserted =
      size (list_to_set (row_id <$> Spec.sources fs) ∖
            list_to_set (Database.tract_ids db) : gset string).
Proof.
  intros Hok.
  destruct (init_db_cases clean float fs db) as [(ts & Hts & Hrun)|[Hnone _]].
  - exists ts. split; [done |].
    rewrite <- (length_mapM _ _ _ Hts). apply kept_count.
  - apply mapM_None_1, Exists_exists in Hnone as (p & Hp & Hnone).
    assert (is_Some (record_of p)) as [t Ht]; [|congruence].
    apply record_of_is_Some.
    rewrite Forall_forall in Hok. apply Hok.
    by eapply kept_rows_subseteq.
Qed.

(** C2, as amended. The run aborts exactly when a row that is not skipped as
    a duplicate (its identifier is neither stored nor that of an earlier row)
    has a score that does not coerce; a row whose identifier collides is
    skipped whatever its scores. An aborted run raises [ValueError] and leaves
    the table as it was; a run that returns only appends to it. *)
Theorem init_db_abort fs db :
  (fst (init_db fs db) = Raise ValueError ↔
   ∃ pre row post,
     Spec.sources fs = pre ++ row :: post ∧
     row_id row ∉ Database.tract_ids db ∧
     row_id row ∉ (row_id <$> pre) ∧
     ¬ Spec.scores_ok float row) ∧
  (∀ e, fst (init_db fs db) = Raise e →
        e = ValueError ∧ snd (init_db fs db) = db) ∧
  (∀ v, fst (init_db fs db) = Return v →
        ∃ inserted, snd (init_db fs db) = db ++ inserted).
Proof.
  destruct (init_db_cases clean float fs db) as [(ts & Hts & Hrun)|[Hnone Hrun]];
    rewrite Hrun; simpl.
  - split_and!; [split; [done |] | done | by eauto].
    intros (pre & row & post & Hsrc & Hdb & Hpre & Hbad).
    assert ((row_id row, row) ∈
            kept_rows (list_to_set (Database.tract_ids db)) (Spec.sources fs)) as Hin.
    { apply kept_rows_elem. exists pre, post.
      split_and!; [done | done | | done]. by rewrite elem_of_list_to_set. }
    apply mapM_Some_1 in Hts.
    apply list_elem_of_lookup_1 in Hin as [k Hk].
    destruct (Forall2_lookup_l _ _ _ _ _ Hts Hk) as (t & _ & Ht).
    exfalso. apply Hbad. apply (record_of_is_Some float (row_id row, row)). eauto.
  - split_and!; [split; [intros _ | done] | by intros e [= <-] | done].
    apply mapM_None_1, Exists_exists in Hnone as ([i row] & Hp & Hnone).
    apply kept_rows_elem in Hp as (pre & post & Hsrc & -> & Hs & Hpre).
    exists pre, row, post. split_and!; [done | | done |].
    + by rewrite elem_of_list_to_set in Hs.
    + intros Hok%(record_of_is_Some float (row_id row, row)).
      destruct Hok as [t Ht]. congruence.
Qed.

Lemma inserted_from_kept (ps : list (string * Row)) (ts : list CensusTract) t :
  mapM record_of ps = Some ts →
  t ∈ ts ↔ ∃ p, p ∈ ps ∧ record_of p = Some t.
Proof.
  intros H%mapM_Some_1. split.
  - intros [k Hk]%list_elem_of_lookup_1.
    destruct (Forall2_lookup_r _ _ _ _ _ H Hk) as (p & Hp & Hpt).
    exists p. split; [by eapply list_elem_of_lookup_2 | done].
  - intros (p & [k Hk]%list_elem_of_lookup_1 & Hpt).
    destruct (Forall2_lookup_l _ _ _ _ _ H Hk) as (t' & Ht' & Hpt').
    assert (t' = t) as -> by congruence. by eapply list_elem_of_lookup_2.
Qed.

Lemma tract_id_clean_digits raw :
  Spec.keeps_digits clean → Spec.digit_text raw →
  Database.tract_id_clean clean raw = Spec.left_pad 11 (Spec.truncate_at_point raw) ∧
  Spec.well_formed_id (Database.tract_id_clean clean raw).
Proof.
  intros Hclean [Hdigits Hlen]. unfold Database.tract_id_clean.
  rewrite tract_id_padded_eq, zfill_left_pad;
    [| done | intros c r; by apply all_digits_no_sign].
  assert (Str.all_digits (Spec.left_pad 11 (Spec.truncate_at_point raw)) = true) as Hd.
  { unfold Spec.left_pad. by rewrite all_digits_append, all_digits_zeros, Hdigits. }
  rewrite (Hclean _ Hd). split; [done |]. split; [|done].
  unfold Spec.left_pad. rewrite length_append, length_zeros. lia.
Qed.

(** C3, the defect. A row whose identifier is the 12 digits
    [123456789012], ingested into an empty table under any sanitizer that
    leaves digit strings alone: the run returns and the record it stores
    carries all 12 digits. [zfill(11)] pads and never cuts, so the stored
    identifier is not the 11-character string the comment of line 76 and the
    bound of the response model call for. *)
Theorem long_identifier_stored :
  Spec.keeps_digits clean →
  Database.init_db clean Sample.float Sample.long_id_file [] =
    (Return PyNone, [Sample.tract "123456789012" 61 52 43 70]) ∧
  String.length "123456789012" = 12 ∧
  ¬ Spec.well_formed_id "123456789012".
Proof.
  intros Hclean. split_and!; [| done | by intros [Hlen _]].
  rewrite init_db_spec.
  assert (Spec.sources Sample.long_id_file =
          [Sample.row "123456789012" (Sample.Num 61) (Sample.Num 52)
             (Sample.Num 43) (Sample.Num 70)]) as -> by (vm_compute; reflexivity).
  rewrite kept_rows_cons_fresh by (simpl; apply not_elem_of_empty).
  simpl. unfold Spec.record_of, Database.make_tract. simpl.
  change (Spec.row_id clean _) with (clean "123456789012").
  by rewrite (Hclean "123456789012" eq_refl).
Qed.

(** X16. Whatever the sanitizer, a run keeps the identifiers of the table
    pairwise distinct, and a record it leaves in the table was there before
    or carries the cleaned identifier of a source row. Under a sanitizer
    that leaves digit strings alone, when the text before the point of every
    source identifier is at most 11 digits, every record the run added has
    an identifier of exactly 11 digits. *)
Theorem init_db_ids_distinct fs db :
  (NoDup (Database.tract_ids db) →
   NoDup (Database.tract_ids (snd (init_db fs db)))) ∧
  (∀ t, t ∈ snd (init_db fs db) →
        t ∈ db ∨ ∃ row, row ∈ Spec.sources fs ∧ Database.census_tract t = row_id row) ∧
  (Spec.keeps_digits clean →
   Forall (λ row, Spec.digit_text (Database.row_census_tract row)) (Spec.sources fs) →
   ∀ t, t ∈ snd (init_db fs db) →
        t ∈ db ∨ Spec.well_formed_id (Database.census_tract t)).
Proof.
  destruct (init_db_cases clean float fs db) as [(ts & Hts & Hrun)|[Hnone Hrun]];
    rewrite Hrun; simpl; [|by auto].
  pose proof (mapM_record_ids float _ _ Hts) as Hids.
  assert (∀ t, t ∈ ts →
            ∃ row, row ∈ Spec.sources fs ∧ Database.census_tract t = row_id row) as Hrow.
  { intros t (p & Hp & Hpt)%(inserted_from_kept _ _ _ Hts).
    exists p.2. split; [by eapply kept_rows_subseteq |].
    rewrite (make_tract_id float _ _ _ Hpt). by eapply kept_rows_fst. }
  split_and!.
  - intros Hnd. unfold Database.tract_ids in *. rewrite fmap_app, Hids.
    apply NoDup_app. split_and!; [done | | apply kept_rows_NoDup].
    intros i Hi [_ Hseen]%kept_rows_ids. by rewrite elem_of_list_to_set in Hseen.
  - intros t [Ht|Ht]%elem_of_app; [by left | right; by apply Hrow].
  - intros Hclean Hsrc t [Ht|Ht]%elem_of_app; [by left | right].
    destruct (Hrow t Ht) as (row & Hin & ->).
    apply tract_id_clean_digits; [done |].
    rewrite Forall_forall in Hsrc. by apply Hsrc.
Qed.

(** C4. A run that returns only appends to the table, at most one record per
    identifier, and the records it appends are exactly those built from the
    rows whose identifier is neither stored nor that of an earlier row (the
    first row seen wins, with its scores). The identifiers stored afterwards
    are those stored before together with those of the sources; ingesting
    the same sources again inserts nothing, and so does a run in which the
    same rows come twice, as both files. *)
Theorem init_db_first_write_wins fs db v db' :
  init_db fs db = (Return v, db') →
  (∃ inserted,
     db' = db ++ inserted ∧ NoDup (Database.tract_ids inserted) ∧
     ∀ t, t ∈ inserted ↔
          ∃ pre row post,
            Spec.sources fs = pre ++ row :: post ∧
            row_id row ∉ Database.tract_ids db ∧
            row_id row ∉ (row_id <$> pre) ∧
            Database.make_tract float (row_id row) row = Some t) ∧
  (∀ i, i ∈ Database.tract_ids db' ↔
        i ∈ Database.tract_ids db ∨ i ∈ (row_id <$> Spec.sources fs)) ∧
  init_db fs db' = (Return PyNone, db') ∧
  (∀ fs2, Spec.sources fs2 = Spec.sources fs ++ Spec.sources fs →
          init_db fs2 db = (Return PyNone, db')).
Proof.
  intros Hret.
  destruct (init_db_cases clean float fs db) as [(ts & Hts & Hrun)|[Hnone Hrun]];
    rewrite Hrun in Hret; [|done].
  injection Hret as <- <-.
  pose proof (mapM_record_ids float _ _ Hts) as Hids.
  assert (∀ i, i ∈ Database.tract_ids (db ++ ts) ↔
               i ∈ Database.tract_ids db ∨ i ∈ (row_id <$> Spec.sources fs)) as Hunion.
  { intros i. unfold Database.tract_ids in *.
    rewrite fmap_app, elem_of_app, Hids, kept_rows_ids, elem_of_list_to_set.
    destruct (decide (i ∈ Database.census_tract <$> db)); tauto. }
  split_and!; [exists ts; split_and! | done | |].
  - done.
  - rewrite Hids. apply kept_rows_NoDup.
  - intros t. rewrite (inserted_from_kept _ _ _ Hts). split.
    + intros ([i row] & Hp & Hpt). pose proof Hp as Hfst%kept_rows_fst.
      simpl in Hfst. subst i.
      apply kept_rows_elem in Hp as (pre & post & Hsrc & _ & Hs & Hpre).
      exists pre, row, post. rewrite elem_of_list_to_set in Hs. done.
    + intros (pre & row & post & Hsrc & Hdb & Hpre & Ht).
      exists (row_id row, row). split; [|done].
      apply kept_rows_elem. exists pre, post.
      split_and!; [done | done | | done]. by rewrite elem_of_list_to_set.
  - rewrite init_db_spec, kept_rows_all_seen; [simpl; by rewrite app_nil_r |].
    intros row Hrow. rewrite elem_of_list_to_set. apply Hunion. right.
    apply list_elem_of_fmap. by exists row.
  - intros fs2 Hfs2. by rewrite init_db_spec, Hfs2, kept_rows_twice, Hts.
Qed.

(** C5, as amended. The cleaned identifier is the sanitized [zfill(11)] of the
    text before the first point. When that text has at most 11 characters and
    no leading sign, [zfill] is the left-pad with zeros to exactly 11
    characters. Under a sanitizer that leaves digit strings alone the two
    texts of the specification both give ["06037102107"]. *)
Theorem tract_id_clean_steps raw :
  Spec.keeps_digits clean →
  Database.tract_id_clean clean raw =
    clean (Str.zfill 11 (Spec.truncate_at_point raw)) ∧
  (String.length (Spec.truncate_at_point raw) ≤ 11 →
   (∀ c r, Spec.truncate_at_point raw = String c r → Str.is_sign c = false) →
   Database.tract_id_padded raw = Spec.left_pad 11 (Spec.truncate_at_point raw) ∧
   String.length (Database.tract_id_padded raw) = 11) ∧
  Database.tract_id_clean clean "6037102107" = "06037102107" ∧
  Database.tract_id_clean clean "6037102107.0" = "06037102107".
Proof.
  intros Hclean. unfold Database.tract_id_clean. split_and!.
  - by rewrite tract_id_padded_eq.
  - intros Hlen Hsign. rewrite tract_id_padded_eq, zfill_left_pad by done.
    split; [done |]. unfold Spec.left_pad. rewrite length_append, length_zeros. lia.
  - by apply Hclean.
  - by apply Hclean.
Qed.

End IngestClaims.

(** ** The ingestion claims on concrete inputs *)

Lemma sample_clean_keeps_digits : Spec.keeps_digits Sample.clean.
Proof.
  intros s. induction s as [|c r IH]; simpl; [done |].
  intros [Hc Hr]%andb_true_iff.
  assert (Ascii.eqb c "<" || Ascii.eqb c ">" = false) as ->.
  { apply orb_false_iff; split; apply Ascii.eqb_neq; intros ->; discriminate Hc. }
  by rewrite IH.
Qed.

Example init_db_overlapping_files :
  Database.init_db Sample.clean Sample.float Sample.overlapping_files [] =
    (Return PyNone,
     [Sample.tract "06037102107" 61 52 43 70;
      Sample.tract "06037102108" 10 20 30 40;
      Sample.tract "06037102109" 11 21 31 41]).
Proof. vm_compute. reflexivity. Qed.

Example init_db_fresh_bad_file :
  Database.init_db Sample.clean Sample.float Sample.fresh_bad_file
    [Sample.tract "06037102100" 1 2 3 4] =
    (Raise ValueError, [Sample.tract "06037102100" 1 2 3 4]).
Proof. vm_compute. reflexivity. Qed.

(** C1, counterexample. With one row in the primary file and an empty table
    one record is inserted, and whatever the sanitizer the call does not
    evaluate to an integer. *)
Lemma init_db_count_counterexample :
  ¬ ∃ (clean : string → string) (n : Z),
      fst (Database.init_db clean Sample.float Sample.one_file []) = Return (PyInt n).
Proof.
  intros (clean & n & H).
  by destruct (init_db_cases clean Sample.float Sample.one_file [])
    as [(ts & _ & Hrun)|[_ Hrun]]; rewrite Hrun in H.
Qed.

(** C1, witness: the one-row file, empty table. *)
Lemma init_db_returns_None_witness :
  Forall (Spec.scores_ok Sample.float) (Spec.sources Sample.one_file) ∧
  ∃ inserted,
    Database.init_db Sample.clean Sample.float Sample.one_file [] =
      (Return PyNone, [] ++ inserted) ∧
    length inserted =
      size (list_to_set (Spec.row_id Sample.clean <$> Spec.sources Sample.one_file) ∖
            list_to_set (Database.tract_ids (score:=Z) []) : gset string).
Proof.
  assert (Forall (Spec.scores_ok Sample.float) (Spec.sources Sample.one_file)) as H.
  { assert (Spec.sources Sample.one_file =
            [Sample.row "6037102107.0" (Sample.Num 61) (Sample.Num 52)
               (Sample.Num 43) (Sample.Num 70)]) as -> by (vm_compute; reflexivity).
    repeat constructor; simpl; eauto. }
  split; [exact H |].
  exact (init_db_returns_None Sample.clean Sample.float Sample.one_file [] H).
Defined.

(** C2, counterexample. The second row of the file has a score that is no
    number, and the run does not abort, whatever the sanitizer: the row
    repeats the identifier of the first and is skipped before its scores are
    read. *)
Lemma duplicate_bad_score_counterexample :
  ¬ ∃ (clean : string → string) (e : exn),
      fst (Database.init_db clean Sample.float Sample.duplicate_bad_file []) = Raise e.
Proof.
  intros (clean & e & H). rewrite init_db_spec in H.
  assert (Spec.sources Sample.duplicate_bad_file =
          [Sample.row "06037102107" (Sample.Num 61) (Sample.Num 52)
             (Sample.Num 43) (Sample.Num 70);
           Sample.row "06037102107" (Sample.NotANumber "abc") (Sample.Num 1)
             (Sample.Num 2) (Sample.Num 3)]) as Hsrc by (vm_compute; reflexivity).
  rewrite Hsrc in H.
  rewrite kept_rows_cons_fresh in H by (simpl; apply not_elem_of_empty).
  rewrite kept_rows_cons_seen in H by (apply elem_of_union_l, elem_of_singleton; reflexivity).
  simpl in H. discriminate H.
Qed.

(** C2, witness: a new identifier with a score that is no number aborts the
    run and the table keeps its one record. *)
Lemma init_db_abort_witness :
  fst (Database.init_db Sample.clean Sample.float Sample.fresh_bad_file
         [Sample.tract "06037102100" 1 2 3 4]) = Raise ValueError ∧
  snd (Database.init_db Sample.clean Sample.float Sample.fresh_bad_file
         [Sample.tract "06037102100" 1 2 3 4]) = [Sample.tract "06037102100" 1 2 3 4].
Proof.
  destruct (init_db_abort Sample.clean Sample.float Sample.fresh_bad_file
              [Sample.tract "06037102100" 1 2 3 4]) as (Hiff & Hraise & _).
  assert (fst (Database.init_db Sample.clean Sample.float Sample.fresh_bad_file
                 [Sample.tract "06037102100" 1 2 3 4]) = Raise ValueError) as H.
  { apply Hiff.
    exists [Sample.row "06037102107" (Sample.Num 61) (Sample.Num 52)
              (Sample.Num 43) (Sample.Num 70)],
           (Sample.row "06037102108" (Sample.Num 1) (Sample.NotANumber "abc")
              (Sample.Num 2) (Sample.Num 3)), [].
    split_and!.
    - vm_compute. reflexivity.
    - vm_compute. intros Hin%list_elem_of_singleton. discriminate Hin.
    - vm_compute. intros Hin%list_elem_of_singleton. discriminate Hin.
    - intros (_ & [x Hx] & _). discriminate Hx. }
  split; [exact H | exact (proj2 (Hraise _ H))].
Defined.

(** C3, witness: the stand-in sanitizer. *)
Lemma long_identifier_stored_witness :
  Spec.keeps_digits Sample.clean ∧
  Database.init_db Sample.clean Sample.float Sample.long_id_file [] =
    (Return PyNone, [Sample.tract "123456789012" 61 52 43 70]).
Proof.
  split; [exact sample_clean_keeps_digits |].
  exact (proj1 (long_identifier_stored Sample.clean sample_clean_keeps_digits)).
Defined.

(** C4, witness: the two overlapping files, ingested into an empty table; the
    row of the supplementary file that repeats ["06037102107"] is dropped. *)
Lemma init_db_first_write_wins_witness :
  Database.init_db Sample.clean Sample.float Sample.overlapping_files [] =
    (Return PyNone,
     [Sample.tract "06037102107" 61 52 43 70;
      Sample.tract "06037102108" 10 20 30 40;
      Sample.tract "06037102109" 11 21 31 41]) ∧
  Database.init_db Sample.clean Sample.float Sample.overlapping_files
    [Sample.tract "06037102107" 61 52 43 70;
     Sample.tract "06037102108" 10 20 30 40;
     Sample.tract "06037102109" 11 21 31 41] =
    (Return PyNone,
     [Sample.tract "06037102107" 61 52 43 70;
      Sample.tract "06037102108" 10 20 30 40;
      Sample.tract "06037102109" 11 21 31 41]).
Proof.
  assert (Database.init_db Sample.clean Sample.float Sample.overlapping_files [] =
          (Return PyNone,
           [Sample.tract "06037102107" 61 52 43 70;
            Sample.tract "06037102108" 10 20 30 40;
            Sample.tract "06037102109" 11 21 31 41])) as H
    by (vm_compute; reflexivity).
  split; [exact H |].
  exact (proj1 (proj2 (proj2 (init_db_first_write_wins Sample.clean Sample.float
                                Sample.overlapping_files [] _ _ H)))).
Defined.

(** C5, counterexample. An identifier of 12 characters is not brought to 11,
    and a leading sign stays in front of the zeros. *)
Lemma tract_id_padded_counterexample :
  String.length (Database.tract_id_padded "123456789012") ≠ 11 ∧
  Database.tract_id_padded "-5" ≠ Spec.left_pad 11 "-5".
Proof. split; vm_compute; discriminate. Qed.

(** C5, witness: the sample sanitizer and the text ["6037102107.0"]. *)
Lemma tract_id_clean_steps_witness :
  Spec.keeps_digits Sample.clean ∧
  Database.tract_id_clean Sample.clean "6037102107.0" =
    Sample.clean (Str.zfill 11 (Spec.truncate_at_point "6037102107.0")) ∧
  Database.tract_id_padded "6037102107.0" = "06037102107" ∧
  Database.tract_id_clean Sample.clean "6037102107" = "06037102107" ∧
  Database.tract_id_clean Sample.clean "6037102107.0" = "06037102107".
Proof.
  destruct (tract_id_clean_steps Sample.clean "6037102107.0" sample_clean_keeps_digits)
    as (H1 & H2 & H3 & H4).
  split_and!; [exact sample_clean_keeps_digits | exact H1 | | exact H3 | exact H4].
  refine (proj1 (H2 _ _)).
  - vm_compute. lia.
  - intros c r Heq. vm_compute in Heq. injection Heq as <- _. reflexivity.
Defined.

(** ** Claims about the token flow and the lookup *)

Section AuthClaims.

Context {token digest : Type}.
Variable jwt_encode : gmap string jvalue → string → string → token.
Variable jwt_decode : token → string → list string → Z → option (gmap string jvalue).
Variable pwd_hash : string → digest.
Variable pwd_verify : string → digest → result bool.
Variables SECRET_KEY ALGORITHM : string.
Variable ACCESS_TOKEN_EXPIRE_MINUTES : Z.

Local Abbreviation users_db := (Main.users_db pwd_hash).
Local Abbreviation create_access_token :=
  (Main.create_access_token jwt_encode SECRET_KEY ALGORITHM ACCESS_TOKEN_EXPIRE_MINUTES).
Local Abbreviation get_current_user :=
  (Main.get_current_user jwt_decode pwd_hash SECRET_KEY ALGORITHM).
Local Abbreviation login :=
  (Main.login jwt_encode pwd_hash pwd_verify SECRET_KEY ALGORITHM
     ACCESS_TOKEN_EXPIRE_MINUTES).
Lemma users_db_lookup u :
  users_db !! u =
    if decide (u = "admin")
    then Some {| Main.username := "admin";
                 Main.hashed_password := pwd_hash "securepassword123" |}
    else None.
Proof.
  unfold Main.users_db. destruct (decide (u = "admin")) as [->|Hne].
  - apply lookup_singleton_eq.
  - by apply lookup_singleton_ne.
Qed.

(** The outcome of [get_current_user], by cases on what [jwt.decode] gives. *)
Lemma get_current_user_cases tok now :
  get_current_user tok now =
    match jwt_decode tok SECRET_KEY [ALGORITHM] now with
    | Some payload =>
        match payload !! "sub" with
        | Some (JStr u) =>
            if decide (u = "admin") then Return u
            else Raise Main.credentials_exception
        | _ => Raise Main.credentials_exception
        end
    | None => Raise Main.credentials_exception
    end.
Proof.
  unfold Main.get_current_user. destruct (jwt_decode _ _ _ _) as [payload|]; [|done].
  destruct (payload !! "sub") as [[u|n]|]; try done.
  rewrite users_db_lookup. by destruct (decide (u = "admin")).
Qed.

(** C6. A token issued for a known username validates to that username from
    the moment it is issued until its expiry; at the moment of issue this
    needs a token lifetime that is not negative. *)
Theorem token_round_trip u now now' :
  Lib.jose_round_trip jwt_encode jwt_decode →
  is_Some (users_db !! u) →
  (now ≤ now' ≤ now + 60 * ACCESS_TOKEN_EXPIRE_MINUTES)%Z →
  get_current_user (create_access_token {[ "sub" := JStr u ]} now) now' = Return u.
Proof.
  intros Hjose Hknown Hnow.
  unfold Main.get_current_user, Main.create_access_token.
  rewrite Hjose.
  - rewrite lookup_insert_ne by done. rewrite lookup_singleton_eq.
    by destruct Hknown as [user ->].
  - split_and!.
    + rewrite dom_insert, dom_singleton. set_solver.
    + intros v. rewrite lookup_insert_ne by done. rewrite lookup_singleton_eq.
      intros [= <-]. eauto.
    + intros v. rewrite lookup_insert_eq. intros [= <-]. eexists. split; [done | lia].
Qed.

(** What [login] does once the username is looked up. *)
Lemma login_cases u p now :
  login u p now =
    if decide (u = "admin") then
      match pwd_verify p (pwd_hash "securepassword123") with
      | Raise e => Raise e
      | Return true =>
          Return {| Main.access_token := create_access_token {[ "sub" := JStr u ]} now;
                    Main.token_type := "bearer" |}
      | Return false => Raise (HTTPException 401 "Incorrect username or password")
      end
    else Raise (HTTPException 401 "Incorrect username or password").
Proof.
  unfold Main.login. rewrite users_db_lookup.
  destruct (decide (u = "admin")) as [->|Hu]; [|done]. simpl.
  by destruct (pwd_verify p _) as [[|]|e].
Qed.

(** C8, the defect. For the known username and a password that holds a NUL
    byte, passlib's [verify] raises and [login] lets the error through: the
    request ends with [PasswordValueError], not with the 401 exception,
    while an unknown username with the same password gets the 401 exception
    (the lookup fails before [verify] is called). *)
Theorem login_nul_password_raises p now :
  Lib.passlib_rejects_nul pwd_hash pwd_verify →
  Lib.has_nul p = true →
  login "admin" p now = Raise PasswordValueError ∧
  ∀ u, u ≠ "admin" →
       login u p now = Raise (HTTPException 401 "Incorrect username or password").
Proof.
  intros Hnul Hp. split.
  - rewrite login_cases, decide_True by done.
    rewrite Hnul; [done | done |]. split; [done | simpl; lia].
  - intros u Hu. by rewrite login_cases, decide_False.
Qed.

(** X17. For a password bcrypt takes whole (no NUL byte, at most 72 bytes),
    and bcrypt taken as free of collisions, [login] issues a token exactly
    for the pair of [users_db], that is for a username the mapping holds
    with the hash of the password given; every other such pair, unknown
    username or wrong password alike, gets the same 401 exception. *)
Theorem login_verifies_credentials u p now :
  Lib.passlib_verifies pwd_hash pwd_verify →
  Lib.plain_password p →
  ((∃ tok, login u p now = Return tok) ↔ u = "admin" ∧ p = "securepassword123") ∧
  (u = "admin" ∧ p = "securepassword123" ↔
   ∃ user, users_db !! u = Some user ∧ Main.hashed_password user = pwd_hash p) ∧
  (u = "admin" ∧ p = "securepassword123" →
   login u p now =
     Return {| Main.access_token := create_access_token {[ "sub" := JStr u ]} now;
               Main.token_type := "bearer" |}) ∧
  (¬ (u = "admin" ∧ p = "securepassword123") →
   login u p now = Raise (HTTPException 401 "Incorrect username or password")).
Proof.
  intros Hpasslib Hp.
  assert (Lib.plain_password "securepassword123") as Hq by (split; [done | simpl; lia]).
  assert (login u p now =
          if decide (u = "admin" ∧ p = "securepassword123")
          then Return {| Main.access_token := create_access_token {[ "sub" := JStr u ]} now;
                         Main.token_type := "bearer" |}
          else Raise (HTTPException 401 "Incorrect username or password")) as Hlogin.
  { rewrite login_cases.
    destruct (decide (u = "admin")) as [->|Hu].
    - rewrite (Hpasslib p "securepassword123" Hp Hq).
      destruct (decide (p = "securepassword123")) as [->|Hne].
      + rewrite bool_decide_eq_true_2 by done. by rewrite decide_True.
      + rewrite bool_decide_eq_false_2 by done. rewrite decide_False; [done | tauto].
    - rewrite decide_False; [done | tauto]. }
  rewrite Hlogin. split_and!.
  - destruct (decide _); split; [eauto | eauto | by intros [? ?] | done].
  - rewrite users_db_lookup. split.
    + intros [-> ->]. rewrite decide_True by done. eauto.
    + destruct (decide (u = "admin")) as [->|]; [|by intros (? & ? & _)].
      intros (user & [= <-] & Hh). simpl in Hh. split; [done |].
      pose proof (Hpasslib p p Hp Hp) as Hself. rewrite <- Hh in Hself.
      rewrite (Hpasslib p "securepassword123" Hp Hq) in Hself.
      assert (bool_decide (p = p) = true) as Hpp by (by apply bool_decide_eq_true_2).
      apply (bool_decide_eq_true_1 (p = "securepassword123")). congruence.
  - intros H. by rewrite decide_True.
  - intros H. by rewrite decide_False.
Qed.

End AuthClaims.

Section ValidationClaims.

Context {token digest : Type}.
Variable jwt_encode : gmap string jvalue → string → string → token.
Variable jwt_decode : token → string → list string → Z → option (gmap string jvalue).
Variable jws_parse : token → option Lib.Jws.
Variable jws_verify : token → string → bool.
Variable claims_validate : gmap string jvalue → Z → bool.
Variable pwd_hash : string → digest.
Variables SECRET_KEY ALGORITHM : string.

Local Abbreviation users_db := (Main.users_db pwd_hash).
Local Abbreviation get_current_user :=
  (Main.get_current_user jwt_decode pwd_hash SECRET_KEY ALGORITHM).
Local Abbreviation decode_spec :=
  (Lib.jose_decode_spec jwt_decode jws_parse jws_verify claims_validate).

(** The outcome of [get_current_user], by what the token holds. *)
Lemma get_current_user_anatomy tok now :
  decode_spec →
  get_current_user tok now =
    match jws_parse tok with
    | Some j =>
        if bool_decide (Lib.jws_alg j = ALGORITHM) && jws_verify tok SECRET_KEY &&
           claims_validate (Lib.jws_claims j) now
        then match Lib.jws_claims j !! "sub" with
             | Some (JStr u) =>
                 if decide (u = "admin") then Return u
                 else Raise Main.credentials_exception
             | _ => Raise Main.credentials_exception
             end
        else Raise Main.credentials_exception
    | None => Raise Main.credentials_exception
    end.
Proof.
  intros Hdec. rewrite get_current_user_cases, Hdec.
  destruct (jws_parse tok) as [j|]; [|done].
  rewrite (bool_decide_ext (Lib.jws_alg j ∈ [ALGORITHM]) (Lib.jws_alg j = ALGORITHM))
    by apply list_elem_of_singleton.
  by destruct (_ && _ && _).
Qed.


End ValidationClaims.

Section LookupClaims.

Context {score token digest : Type}.
Variable clean : string → string.
Variable jwt_decode : token → string → list string → Z → option (gmap string jvalue).
Variable pwd_hash : string → digest.
Variables SECRET_KEY ALGORITHM : string.

Local Abbreviation get_current_user :=
  (Main.get_current_user jwt_decode pwd_hash SECRET_KEY ALGORITHM).
Local Abbreviation get_single_tract :=
  (Main.get_single_tract (score:=score) clean jwt_decode pwd_hash SECRET_KEY ALGORITHM).

(** C10, as amended. With a valid token, the lookup fails with the 404
    exception exactly when no stored identifier equals the query text as it
    was given (nothing is cut, padded or sanitized before the comparison);
    otherwise it returns a stored record whose identifier is that text, with
    the identifier sanitized on the way out. *)
Theorem get_single_tract_exact q tok now (db : list (Database.CensusTract score)) user :
  get_current_user tok now = Return user →
  (get_single_tract q tok now db = Raise (HTTPException 404 "Census tract not found") ↔
   q ∉ Database.tract_ids db) ∧
  (q ∈ Database.tract_ids db →
   ∃ t, t ∈ db ∧ Database.census_tract t = q ∧
        get_single_tract q tok now db =
          Return {| Database.census_tract := clean q;
                    Database.inclusion_score := Database.inclusion_score t;
                    Database.growth_score := Database.growth_score t;
                    Database.economy_score := Database.economy_score t;
                    Database.community_score := Database.community_score t |}).
Proof.
  intros Hauth. unfold Main.get_single_tract. rewrite Hauth.
  destruct (list_find _ db) as [[k t]|] eqn:Hfind.
  - apply list_find_Some in Hfind as (Hk & Hq & _).
    apply list_elem_of_lookup_2 in Hk. split.
    + split; [done |]. intros Hnot. exfalso. apply Hnot.
      unfold Database.tract_ids. apply list_elem_of_fmap. by exists t.
    + intros _. exists t. by rewrite Hq.
  - apply list_find_None in Hfind.
    assert (q ∉ Database.tract_ids db) as Hnot.
    { intros (t & -> & Ht)%list_elem_of_fmap.
      rewrite Forall_forall in Hfind. by apply (Hfind t). }
    split; [done | by intros ?].
Qed.

End LookupClaims.

(** ** The token claims on concrete inputs *)

Lemma sample_jose_round_trip : Lib.jose_round_trip Sample.jwt_encode Sample.jwt_decode.
Proof.
  intros claims key alg now (_ & _ & Hexp).
  unfold Sample.jwt_decode, Sample.jwt_encode. simpl.
  rewrite bool_decide_eq_true_2 by done.
  rewrite bool_decide_eq_true_2 by (apply list_elem_of_singleton; done).
  simpl. destruct (claims !! "exp") as [v|]; [|done].
  destruct (Hexp v eq_refl) as (e & -> & He).
  by rewrite (proj2 (Z.ltb_ge e now) He).
Qed.

Lemma sample_jose_decodes_encoded :
  Lib.jose_decodes_encoded Sample.jwt_encode Sample.jwt_decode.
Proof.
  intros claims key alg key' algs now claims'.
  unfold Sample.jwt_decode, Sample.jwt_encode. simpl.
  repeat case_match; congruence.
Qed.

Lemma sample_jose_checks_expiry : Lib.jose_checks_expiry Sample.jwt_decode.
Proof.
  intros tok key algs now claims e. unfold Sample.jwt_decode.
  destruct (negb _); [done |]. destruct (negb _); [done |].
  destruct (Sample.tok_claims tok !! "exp") as [[s|e']|] eqn:Hexp; [done | |].
  - destruct (Z.ltb_spec e' now); [done |]. intros [= <-]. rewrite Hexp.
    intros [= <-]. done.
  - intros [= <-]. by rewrite Hexp.
Qed.

Lemma sample_passlib_rejects_nul :
  Lib.passlib_rejects_nul Sample.pwd_hash Sample.pwd_verify.
Proof.
  intros p q Hp _. unfold Sample.pwd_verify. unfold Lib.has_nul in Hp. by rewrite Hp.
Qed.

Lemma sample_passlib_verifies : Lib.passlib_verifies Sample.pwd_hash Sample.pwd_verify.
Proof.
  intros p q [Hp _] _. unfold Sample.pwd_verify, Sample.pwd_hash.
  unfold Lib.has_nul in Hp. by rewrite Hp.
Qed.

Example admin_token_validates :
  Main.get_current_user Sample.jwt_decode Sample.pwd_hash Sample.SECRET_KEY
    Sample.ALGORITHM (Sample.admin_token 1000) 2800 = Return "admin".
Proof. vm_compute. reflexivity. Qed.

Example admin_token_expires :
  Main.get_current_user Sample.jwt_decode Sample.pwd_hash Sample.SECRET_KEY
    Sample.ALGORITHM (Sample.admin_token 1000) 2801 =
    Raise (HTTPException 401 "Invalid authentication credentials").
Proof. vm_compute. reflexivity. Qed.

(** C6, witness: the token of ["admin"], validated in the second it was
    issued, under the configuration by default. *)
Lemma token_round_trip_witness :
  Lib.jose_round_trip Sample.jwt_encode Sample.jwt_decode ∧
  is_Some (Main.users_db Sample.pwd_hash !! "admin") ∧
  (1000 ≤ 1000 ≤ 1000 + 60 * Sample.ACCESS_TOKEN_EXPIRE_MINUTES)%Z ∧
  Main.get_current_user Sample.jwt_decode Sample.pwd_hash Sample.SECRET_KEY
    Sample.ALGORITHM (Sample.admin_token 1000) 1000 = Return "admin".
Proof.
  assert (is_Some (Main.users_db Sample.pwd_hash !! "admin")) as Hknown
    by (vm_compute; eauto).
  assert (1000 ≤ 1000 ≤ 1000 + 60 * Sample.ACCESS_TOKEN_EXPIRE_MINUTES)%Z as Hnow
    by (vm_compute; split; discriminate).
  refine (conj sample_jose_round_trip (conj Hknown (conj Hnow _))).
  exact (token_round_trip Sample.jwt_encode Sample.jwt_decode Sample.pwd_hash
           Sample.SECRET_KEY Sample.ALGORITHM Sample.ACCESS_TOKEN_EXPIRE_MINUTES
           "admin" 1000 1000 sample_jose_round_trip Hknown Hnow).
Defined.

Lemma fixture_jose_decode_spec :
  Lib.jose_decode_spec Fixture.jwt_decode Fixture.jws_parse Fixture.jws_verify
    Fixture.claims_validate.
Proof. intros tok key algs now. reflexivity. Qed.

Lemma fixture_jose_validates_expiry : Lib.jose_validates_expiry Fixture.claims_validate.
Proof.
  intros claims now e Hval He. unfold Fixture.claims_validate in Hval.
  rewrite He in Hval. apply andb_true_iff in Hval as [Hle _]. lia.
Qed.

Lemma fixture_jose_encode_spec :
  Lib.jose_encode_spec Fixture.jwt_encode Fixture.jws_parse.
Proof. intros claims key alg. reflexivity. Qed.


(** C8, witness: the password [a], NUL, [b] for ["admin"] and for ["nope"]. *)
Lemma login_nul_password_raises_witness :
  Lib.passlib_rejects_nul Sample.pwd_hash Sample.pwd_verify ∧
  Main.login Sample.jwt_encode Sample.pwd_hash Sample.pwd_verify
    Sample.SECRET_KEY Sample.ALGORITHM Sample.ACCESS_TOKEN_EXPIRE_MINUTES
    "admin" (String "a"%char (String "000"%char "b")) 1000 =
    Raise PasswordValueError ∧
  Main.login Sample.jwt_encode Sample.pwd_hash Sample.pwd_verify
    Sample.SECRET_KEY Sample.ALGORITHM Sample.ACCESS_TOKEN_EXPIRE_MINUTES
    "nope" (String "a"%char (String "000"%char "b")) 1000 =
    Raise (HTTPException 401 "Incorrect username or password").
Proof.
  destruct (login_nul_password_raises Sample.jwt_encode Sample.pwd_hash
              Sample.pwd_verify Sample.SECRET_KEY Sample.ALGORITHM
              Sample.ACCESS_TOKEN_EXPIRE_MINUTES
              (String "a"%char (String "000"%char "b")) 1000
              sample_passlib_rejects_nul eq_refl) as [Hadmin Hother].
  split_and!; [exact sample_passlib_rejects_nul | exact Hadmin |].
  apply Hother. discriminate.
Defined.

(** X17, witness: the pair of the mapping gets a token; an unknown username
    and a wrong password get the same exception. *)
Lemma login_verifies_credentials_witness :
  Lib.passlib_verifies Sample.pwd_hash Sample.pwd_verify ∧
  (∃ tok, Main.login Sample.jwt_encode Sample.pwd_hash Sample.pwd_verify
            Sample.SECRET_KEY Sample.ALGORITHM Sample.ACCESS_TOKEN_EXPIRE_MINUTES
            "admin" "securepassword123" 1000 = Return tok) ∧
  Main.login Sample.jwt_encode Sample.pwd_hash Sample.pwd_verify
    Sample.SECRET_KEY Sample.ALGORITHM Sample.ACCESS_TOKEN_EXPIRE_MINUTES
    "nope" "securepassword123" 1000 =
    Raise (HTTPException 401 "Incorrect username or password") ∧
  Main.login Sample.jwt_encode Sample.pwd_hash Sample.pwd_verify
    Sample.SECRET_KEY Sample.ALGORITHM Sample.ACCESS_TOKEN_EXPIRE_MINUTES
    "admin" "letmein" 1000 =
    Raise (HTTPException 401 "Incorrect username or password").
Proof.
  assert (Lib.plain_password "securepassword123") as Hq by (split; [done | simpl; lia]).
  assert (Lib.plain_password "letmein") as Hl by (split; [done | simpl; lia]).
  split_and!.
  - exact sample_passlib_verifies.
  - apply (login_verifies_credentials Sample.jwt_encode Sample.pwd_hash
             Sample.pwd_verify Sample.SECRET_KEY Sample.ALGORITHM
             Sample.ACCESS_TOKEN_EXPIRE_MINUTES "admin" "securepassword123" 1000
             sample_passlib_verifies Hq).
    split; reflexivity.
  - apply (login_verifies_credentials Sample.jwt_encode Sample.pwd_hash
             Sample.pwd_verify Sample.SECRET_KEY Sample.ALGORITHM
             Sample.ACCESS_TOKEN_EXPIRE_MINUTES "nope" "securepassword123" 1000
             sample_passlib_verifies Hq).
    intros [Hu _]. discriminate Hu.
  - apply (login_verifies_credentials Sample.jwt_encode Sample.pwd_hash
             Sample.pwd_verify Sample.SECRET_KEY Sample.ALGORITHM
             Sample.ACCESS_TOKEN_EXPIRE_MINUTES "admin" "letmein" 1000
             sample_passlib_verifies Hl).
    intros [_ Hp]. discriminate Hp.
Defined.

(** C10, counterexample. The table holds the records ["06037102107"] and
    ["06037102108"]; the query ["06037102108"] differs from the identifier of
    the first, and the lookup does not fail, whatever the sanitizer. *)
Lemma lookup_other_record_counterexample :
  "06037102107" ∈ Database.tract_ids Sample.two_tracts ∧
  "06037102108" ≠ "06037102107" ∧
  ¬ ∃ clean : string → string,
      Main.get_single_tract clean Sample.jwt_decode Sample.pwd_hash
        Sample.SECRET_KEY Sample.ALGORITHM
        "06037102108" (Sample.admin_token 1000) 1000 Sample.two_tracts =
        Raise (HTTPException 404 "Census tract not found").
Proof.
  split_and!.
  - vm_compute. left.
  - discriminate.
  - intros [clean H]. vm_compute in H. discriminate H.
Qed.

(** C10, witness: the unpadded form of a stored identifier is not found. *)
Lemma get_single_tract_exact_witness :
  Main.get_current_user Sample.jwt_decode Sample.pwd_hash Sample.SECRET_KEY
    Sample.ALGORITHM (Sample.admin_token 1000) 1000 = Return "admin" ∧
  "6037102107" ∉ Database.tract_ids Sample.two_tracts ∧
  Main.get_single_tract Sample.clean Sample.jwt_decode Sample.pwd_hash
    Sample.SECRET_KEY Sample.ALGORITHM
    "6037102107" (Sample.admin_token 1000) 1000 Sample.two_tracts =
    Raise (HTTPException 404 "Census tract not found").
Proof.
  assert (Main.get_current_user Sample.jwt_decode Sample.pwd_hash Sample.SECRET_KEY
            Sample.ALGORITHM (Sample.admin_token 1000) 1000 = Return "admin") as Hauth
    by (vm_compute; reflexivity).
  assert ("6037102107" ∉ Database.tract_ids Sample.two_tracts) as Hnot.
  { vm_compute. intros [Heq|[Heq|Hnil]%elem_of_cons]%elem_of_cons;
      [discriminate Heq | discriminate Heq | by apply elem_of_nil in Hnil]. }
  split_and!; [exact Hauth | exact Hnot |].
  exact (proj2 (proj1 (get_single_tract_exact Sample.clean Sample.jwt_decode
                         Sample.pwd_hash Sample.SECRET_KEY Sample.ALGORITHM
                         "6037102107" (Sample.admin_token 1000) 1000
                         Sample.two_tracts "admin" Hauth)) Hnot).
Defined.

(** * Further properties of the code *)

(** ** The ingestion run, continued *)

Section IngestMore.

Context {cell score : Type}.
Variable clean : string → string.
Variable float : cell → option score.

Local Abbreviation Row := (Database.Row cell).
Local Abbreviation CensusTract := (Database.CensusTract score).
Local Abbreviation row_id := (Spec.row_id clean).
Local Abbreviation kept_rows := (Spec.kept_rows clean).
Local Abbreviation record_of := (Spec.record_of float).
Local Abbreviation add_rows := (Database.add_rows clean float).
Local Abbreviation init_db := (Database.init_db clean float).

Implicit Types (rows : list Row) (db : list CensusTract) (fs : Database.Files cell)
  (seen : gset string).

Lemma mapM_app_Some {A B} (f : A → option B) l1 l2 :
  mapM f (l1 ++ l2) =
    match mapM f l1, mapM f l2 with
    | Some k1, Some k2 => Some (k1 ++ k2)
    | _, _ => None
    end.
Proof.
  induction l1 as [|x l1 IH]; simpl.
  - by destruct (mapM f l2).
  - destruct (f x); simpl; [|done]. rewrite IH.
    destruct (mapM f l1); simpl; [|done]. by destruct (mapM f l2).
Qed.

(** The identifiers in the table after a run that returned. *)
Lemma stored_ids_after_run fs db (ts : list CensusTract) :
  mapM record_of (kept_rows (list_to_set (Database.tract_ids db)) (Spec.sources fs)) =
    Some ts →
  ∀ i, i ∈ Database.tract_ids (db ++ ts) ↔
       i ∈ Database.tract_ids db ∨ i ∈ (row_id <$> Spec.sources fs).
Proof.
  intros Hts i. pose proof (mapM_record_ids float _ _ Hts) as Hids.
  unfold Database.tract_ids in *.
  rewrite fmap_app, elem_of_app, Hids, kept_rows_ids, elem_of_list_to_set.
  destruct (decide (i ∈ Database.census_tract <$> db)); tauto.
Qed.

(** X1. The UNIQUE constraint of [census_tract] never fires: whatever the
    rows of the frame and the table, the records the loop hands to [commit]
    are all inserted, and no run ends with [IntegrityError]. *)
Theorem init_db_no_integrity_error fs db :
  (∀ pending,
     add_rows (Spec.sources fs) (list_to_set (Database.tract_ids db)) [] =
       Return pending →
     Database.commit db pending = Some (db ++ pending)) ∧
  fst (init_db fs db) ≠ Raise IntegrityError.
Proof.
  split.
  - intros pending. rewrite add_rows_spec.
    destruct (mapM _ _) as [ts|] eqn:Hts; [|done]. simpl. intros [= <-].
    pose proof (mapM_record_ids float _ _ Hts) as Hids.
    apply (commit_fresh clean); rewrite Hids.
    + apply kept_rows_NoDup.
    + intros i (p & -> & Hp%kept_rows_fresh)%list_elem_of_fmap.
      by rewrite elem_of_list_to_set in Hp.
  - by destruct (init_db_cases clean float fs db) as [(ts & _ & ->)|[_ ->]].
Qed.

(** X2. When the identifier of every source row is already stored, the run
    inserts nothing and raises nothing, whatever the scores of these rows;
    so does a run that finds no row at all. *)
Theorem init_db_nothing_new fs db :
  (∀ row, row ∈ Spec.sources fs → row_id row ∈ Database.tract_ids db) →
  init_db fs db = (Return PyNone, db).
Proof.
  intros Hall. rewrite init_db_spec, kept_rows_all_seen; [simpl; by rewrite app_nil_r |].
  intros row Hrow. rewrite elem_of_list_to_set. by apply Hall.
Qed.

(** X4. One run against two runs in a row, when the rows the single run
    iterates over are, text for text and cell for cell, the rows the first
    of the two runs iterates over followed by those of the second (which
    asks that pandas hands out the same identifier texts in the three
    frames), and the first of the two runs returns. Both ways end the same;
    when they return, the table is the same; when the second batch aborts,
    the single run leaves the table as it was before both batches, the two
    runs leave the first batch in it. *)
Theorem init_db_two_runs fs fs1 fs2 db v db1 :
  Spec.sources fs = Spec.sources fs1 ++ Spec.sources fs2 →
  init_db fs1 db = (Return v, db1) →
  fst (init_db fs db) = fst (init_db fs2 db1) ∧
  (fst (init_db fs db) = Return PyNone →
   snd (init_db fs db) = snd (init_db fs2 db1)) ∧
  (∀ e, fst (init_db fs db) = Raise e →
        snd (init_db fs db) = db ∧ snd (init_db fs2 db1) = db1).
Proof.
  intros Hsrc Hrun1.
  destruct (init_db_cases clean float fs1 db) as [(ts1 & Hts1 & Hrun)|[_ Hrun]];
    rewrite Hrun in Hrun1; [|done].
  injection Hrun1 as <- <-.
  assert (list_to_set (Database.tract_ids (db ++ ts1)) =@{gset string}
          list_to_set (row_id <$> Spec.sources fs1) ∪
          list_to_set (Database.tract_ids db)) as Hseen.
  { apply set_eq. intros i.
    rewrite elem_of_union, !elem_of_list_to_set.
    rewrite (stored_ids_after_run fs1 db ts1 Hts1). tauto. }
  rewrite !init_db_spec, Hsrc, kept_rows_app, mapM_app_Some, Hts1, Hseen.
  destruct (mapM record_of (kept_rows _ (Spec.sources fs2))) as [ts2|]; simpl.
  - split_and!; [done | by rewrite app_assoc | done].
  - split_and!; [done | done |]. by intros e _.
Qed.

End IngestMore.

(** X2, witness: a table that already holds the identifier of the one row,
    whose score here is no number. *)
Lemma init_db_nothing_new_witness :
  Database.init_db Sample.clean Sample.float
    {[ "igs_data.csv" :=
         [Sample.row "6037102107.0" (Sample.NotANumber "abc") (Sample.Num 1)
            (Sample.Num 2) (Sample.Num 3)] ]}
    [Sample.tract "06037102107" 61 52 43 70] =
    (Return PyNone, [Sample.tract "06037102107" 61 52 43 70]).
Proof.
  apply (init_db_nothing_new Sample.clean Sample.float).
  intros row Hrow.
  assert (row = Sample.row "6037102107.0" (Sample.NotANumber "abc") (Sample.Num 1)
                  (Sample.Num 2) (Sample.Num 3)) as ->.
  { revert Hrow. vm_compute. intros Hrow%list_elem_of_singleton. exact Hrow. }
  vm_compute. left.
Defined.

(** X4, witness: the two rows in one run, and in two runs. *)
Lemma init_db_two_runs_witness :
  fst (Database.init_db Sample.clean Sample.float Fixture.joined_file []) =
  fst (Database.init_db Sample.clean Sample.float Fixture.second_file
         [Sample.tract "06037102107" 61 52 43 70]).
Proof.
  assert (Spec.sources Fixture.joined_file =
          Spec.sources Fixture.first_file ++ Spec.sources Fixture.second_file) as Hsrc
    by (vm_compute; reflexivity).
  assert (Database.init_db Sample.clean Sample.float Fixture.first_file [] =
          (Return PyNone, [Sample.tract "06037102107" 61 52 43 70])) as Hrun
    by (vm_compute; reflexivity).
  exact (proj1 (init_db_two_runs Sample.clean Sample.float _ _ _ [] _ _ Hsrc Hrun)).
Defined.

(** ** Identifier texts that name the same tract *)

Section Variants.

Variable clean : string → string.

Lemma append_assoc (a b c : string) : (a +:+ b) +:+ c = a +:+ (b +:+ c).
Proof. induction a as [|x a IH]; [done |]. by rewrite !append_cons, IH. Qed.

Lemma zeros_append a b : Str.zeros a +:+ Str.zeros b = Str.zeros (a + b).
Proof.
  induction a as [|a IH]; [done |].
  change (Str.zeros (S a)) with (String "0"%char (Str.zeros a)).
  by rewrite append_cons, IH.
Qed.

Lemma all_digits_no_point p :
  Str.all_digits p = true → Str.contains "."%char p = false.
Proof.
  induction p as [|c r IH]; simpl; [done |].
  intros [Hc Hr]%andb_true_iff.
  destruct (Ascii.eqb_spec c "."%char) as [->|_]; [discriminate Hc | by apply IH].
Qed.

Lemma truncate_at_point_append p suffix :
  Str.contains "."%char p = false →
  Spec.truncate_at_point (p +:+ String "."%char suffix) = p.
Proof.
  induction p as [|c r IH]; [done |]. intros H. simpl in H.
  rewrite append_cons. simpl.
  destruct (Ascii.eqb c "."%char); [done |]. by rewrite IH.
Qed.

Lemma tract_id_padded_digits p :
  Str.all_digits p = true → String.length p ≤ 11 →
  Database.tract_id_padded p = Spec.left_pad 11 p.
Proof.
  intros Hd Hlen.
  rewrite tract_id_padded_eq, truncate_no_point by by apply all_digits_no_point.
  apply zfill_left_pad; [done |]. intros c r. by apply all_digits_no_sign.
Qed.

(** X5. For an identifier of at most 11 digits, the text read as a float
    (with a point and anything after it) and the text with leading zeros up
    to 11 characters are brought to the same padded identifier as the digits
    themselves, so whatever the sanitizer they meet in the seen-set. *)
Theorem tract_id_variants p k suffix :
  Str.all_digits p = true → k + String.length p ≤ 11 →
  Database.tract_id_clean clean p = clean (Spec.left_pad 11 p) ∧
  Database.tract_id_clean clean (p +:+ String "."%char suffix) =
    clean (Spec.left_pad 11 p) ∧
  Database.tract_id_clean clean (Str.zeros k +:+ p) = clean (Spec.left_pad 11 p) ∧
  Database.tract_id_clean clean (Spec.left_pad 11 p) = clean (Spec.left_pad 11 p).
Proof.
  intros Hd Hlen.
  assert (∀ j, j + String.length p ≤ 11 →
               Database.tract_id_padded (Str.zeros j +:+ p) = Spec.left_pad 11 p) as Hz.
  { intros j Hj. rewrite tract_id_padded_digits.
    - unfold Spec.left_pad. rewrite length_append, length_zeros.
      rewrite <- append_assoc, zeros_append. f_equal. f_equal. lia.
    - by rewrite all_digits_append, all_digits_zeros, Hd.
    - rewrite length_append, length_zeros. lia. }
  unfold Database.tract_id_clean. split_and!; f_equal.
  - apply tract_id_padded_digits; [done | lia].
  - rewrite tract_id_padded_eq, truncate_at_point_append by by apply all_digits_no_point.
    apply zfill_left_pad; [lia |]. intros c r. by apply all_digits_no_sign.
  - by apply Hz.
  - unfold Spec.left_pad at 1. apply Hz. lia.
Qed.

End Variants.

(** X5, witness: the identifier ["6037102107"]. *)
Lemma tract_id_variants_witness :
  Database.tract_id_clean Sample.clean "6037102107.0" = "06037102107" ∧
  Database.tract_id_clean Sample.clean "06037102107" = "06037102107".
Proof.
  destruct (tract_id_variants Sample.clean "6037102107" 1 "0") as (_ & H1 & H2 & _).
  - vm_compute. reflexivity.
  - vm_compute. lia.
  - split; [exact H1 | exact H2].
Defined.

(** ** The routes over the table *)

Section ApiMore.

Context {score token digest : Type}.
Variable clean : string → string.
Variable jwt_decode : token → string → list string → Z → option (gmap string jvalue).
Variable pwd_hash : string → digest.
Variables SECRET_KEY ALGORITHM : string.
Variable in_range : score → bool.

Local Abbreviation CensusTract := (Database.CensusTract score).
Local Abbreviation get_current_user :=
  (Main.get_current_user jwt_decode pwd_hash SECRET_KEY ALGORITHM).
Local Abbreviation get_single_tract :=
  (Main.get_single_tract (score:=score) clean jwt_decode pwd_hash SECRET_KEY ALGORITHM).
Local Abbreviation read_users_me :=
  (Main.read_users_me jwt_decode pwd_hash SECRET_KEY ALGORITHM).
Local Abbreviation sanitized := (Api.sanitized (score:=score) clean).
Local Abbreviation fits_model := (Api.fits_model (score:=score) in_range).
Local Abbreviation get_tracts :=
  (Api.get_tracts (score:=score) clean jwt_decode pwd_hash SECRET_KEY ALGORITHM in_range).
Local Abbreviation get_single_tract_response :=
  (Api.get_single_tract_response (score:=score) clean jwt_decode pwd_hash
     SECRET_KEY ALGORITHM in_range).

Implicit Types (db : list CensusTract) (t : CensusTract).

Lemma NoDup_fmap_eq {A B} (f : A → B) (l : list A) x y :
  NoDup (f <$> l) → x ∈ l → y ∈ l → f x = f y → x = y.
Proof.
  induction l as [|z l IH]; [by intros _ ?%elem_of_nil |].
  rewrite fmap_cons. intros [Hz Hnd]%NoDup_cons.
  intros [->|Hx]%elem_of_cons [->|Hy]%elem_of_cons Hf; [done | | | by apply IH].
  - exfalso. apply Hz. rewrite Hf. by apply list_elem_of_fmap_2.
  - exfalso. apply Hz. rewrite <- Hf. by apply list_elem_of_fmap_2.
Qed.

(** What the lookup of a stored identifier returns. *)
Lemma get_single_tract_found q tok now db user :
  get_current_user tok now = Return user →
  q ∈ Database.tract_ids db →
  ∃ t, t ∈ db ∧ Database.census_tract t = q ∧
       get_single_tract q tok now db = Return (sanitized t).
Proof.
  intros Hauth Hq. unfold Main.get_single_tract. rewrite Hauth.
  destruct (list_find _ db) as [[k t]|] eqn:Hfind.
  - apply list_find_Some in Hfind as (Hk & Hqt & _).
    exists t. split_and!; [by eapply list_elem_of_lookup_2 | done | done].
  - apply list_find_None in Hfind. exfalso.
    apply list_elem_of_fmap in Hq as (t & -> & Ht).
    rewrite Forall_forall in Hfind. by apply (Hfind t).
Qed.

Lemma get_single_tract_missing q tok now db user :
  get_current_user tok now = Return user →
  q ∉ Database.tract_ids db →
  get_single_tract q tok now db = Raise (HTTPException 404 "Census tract not found").
Proof.
  intros Hauth Hq. unfold Main.get_single_tract. rewrite Hauth.
  destruct (list_find _ db) as [[k t]|] eqn:Hfind; [|done].
  apply list_find_Some in Hfind as (Hk & Hqt & _). exfalso. apply Hq.
  apply list_elem_of_fmap. exists t. split; [done | by eapply list_elem_of_lookup_2].
Qed.

Lemma model_of_sanitized t :
  Api.CensusTractModel in_range
    (clean (Database.census_tract t)) (Database.inclusion_score t)
    (Database.growth_score t) (Database.economy_score t)
    (Database.community_score t) =
  if fits_model (sanitized t) then Some (sanitized t) else None.
Proof. reflexivity. Qed.

Lemma get_tracts_all_fit tok now db user :
  get_current_user tok now = Return user →
  Forall (λ t, fits_model (sanitized t) = true) db →
  get_tracts tok now db = Api.Responds (sanitized <$> db).
Proof.
  intros Hauth Hall. unfold Api.get_tracts. rewrite Hauth.
  assert (mapM (λ t, Api.CensusTractModel in_range
                       (clean (Database.census_tract t)) (Database.inclusion_score t)
                       (Database.growth_score t) (Database.economy_score t)
                       (Database.community_score t)) db = Some (sanitized <$> db)) as ->;
    [|done].
  apply mapM_Some_2. induction Hall as [|t db Ht _ IH]; [constructor |].
  rewrite fmap_cons. constructor; [|done]. by rewrite model_of_sanitized, Ht.
Qed.

Lemma get_tracts_one_unfit tok now db user :
  get_current_user tok now = Return user →
  Exists (λ t, fits_model (sanitized t) = false) db →
  get_tracts tok now db = Api.Fails Api.ValidationError.
Proof.
  intros Hauth Hex. unfold Api.get_tracts. rewrite Hauth.
  assert (mapM (λ t, Api.CensusTractModel in_range
                       (clean (Database.census_tract t)) (Database.inclusion_score t)
                       (Database.growth_score t) (Database.economy_score t)
                       (Database.community_score t)) db = None) as ->; [|done].
  apply mapM_None_2. apply Exists_exists in Hex as (t & Ht & Hfits).
  apply Exists_exists. exists t. split; [done |]. by rewrite model_of_sanitized, Hfits.
Qed.

(** X6. With a valid token, the listing returns every record of the table,
    in the order of the table, identifier sanitized and scores as stored,
    when each of them fits the response model; one record that does not (an
    identifier of more than 11 characters once sanitized, a score outside 0
    to 100) makes the whole listing fail with [ValidationError]. *)
Theorem get_tracts_spec tok now db user :
  get_current_user tok now = Return user →
  (Forall (λ t, fits_model (sanitized t) = true) db →
   get_tracts tok now db = Api.Responds (sanitized <$> db)) ∧
  (Exists (λ t, fits_model (sanitized t) = false) db →
   get_tracts tok now db = Api.Fails Api.ValidationError).
Proof.
  intros Hauth. split.
  - by apply get_tracts_all_fit with user.
  - by apply get_tracts_one_unfit with user.
Qed.

(** X7. With a valid token and a table of pairwise distinct identifiers, the
    route of one tract answers a stored identifier with the sanitized record
    when it fits the response model and with [ResponseValidationError] when
    it does not (the record is stored and found, and cannot be sent); an
    identifier that is not stored gets the 404 exception. *)
Theorem get_single_tract_response_spec tok now db user :
  get_current_user tok now = Return user →
  NoDup (Database.tract_ids db) →
  (∀ t, t ∈ db →
        get_single_tract_response (Database.census_tract t) tok now db =
          if fits_model (sanitized t) then Api.Responds (sanitized t)
          else Api.Fails Api.ResponseValidationError) ∧
  (∀ q, q ∉ Database.tract_ids db →
        get_single_tract_response q tok now db =
          Api.Fails (Api.Http (HTTPException 404 "Census tract not found"))).
Proof.
  intros Hauth Hnd. split.
  - intros t Ht. unfold Api.get_single_tract_response.
    destruct (get_single_tract_found (Database.census_tract t) tok now db user Hauth)
      as (t' & Ht' & Heq & ->).
    { apply list_elem_of_fmap. by exists t. }
    assert (t' = t) as -> by by eapply (NoDup_fmap_eq Database.census_tract db).
    change (Api.CensusTractModel in_range _ _ _ _ _)
      with (if fits_model (sanitized t) then Some (sanitized t) else None).
    by destruct (fits_model (sanitized t)).
  - intros q Hq. unfold Api.get_single_tract_response.
    by rewrite (get_single_tract_missing q tok now db user Hauth Hq).
Qed.

(** X8. A token that does not validate opens nothing: the listing, the route
    of one tract (whatever the identifier asked for and whatever the table
    holds) and [/users/me] all end with the same 401 exception, so the answer
    does not tell whether a tract is stored. *)
Theorem routes_require_token tok now :
  (∀ u, get_current_user tok now ≠ Return u) →
  read_users_me tok now = Raise Main.credentials_exception ∧
  ∀ q db,
    get_single_tract q tok now db = Raise Main.credentials_exception ∧
    get_single_tract_response q tok now db =
      Api.Fails (Api.Http Main.credentials_exception) ∧
    get_tracts tok now db = Api.Fails (Api.Http Main.credentials_exception).
Proof.
  intros Hno.
  assert (get_current_user tok now = Raise Main.credentials_exception) as Hfail.
  { pose proof (get_current_user_cases jwt_decode pwd_hash SECRET_KEY ALGORITHM tok now)
      as Hcases.
    destruct (jwt_decode _ _ _ _) as [payload|]; [|done].
    destruct (payload !! "sub") as [[u|n]|]; try done.
    destruct (decide (u = "admin")); [|done]. by destruct (Hno u). }
  unfold Main.read_users_me, Api.get_single_tract_response, Api.get_tracts,
    Main.get_single_tract.
  by rewrite Hfail.
Qed.

End ApiMore.

(** ** Ingestion, then the routes *)

Section Pipeline.

Context {cell score token digest : Type}.
Variable clean : string → string.
Variable float : cell → option score.
Variable jwt_decode : token → string → list string → Z → option (gmap string jvalue).
Variable pwd_hash : string → digest.
Variables SECRET_KEY ALGORITHM : string.
Variable in_range : score → bool.

Local Abbreviation Row := (Database.Row cell).
Local Abbreviation CensusTract := (Database.CensusTract score).
Local Abbreviation row_id := (Spec.row_id clean).
Local Abbreviation kept_rows := (Spec.kept_rows clean).
Local Abbreviation record_of := (Spec.record_of float).
Local Abbreviation init_db := (Database.init_db clean float).
Local Abbreviation get_current_user :=
  (Main.get_current_user jwt_decode pwd_hash SECRET_KEY ALGORITHM).
Local Abbreviation get_single_tract :=
  (Main.get_single_tract (score:=score) clean jwt_decode pwd_hash SECRET_KEY ALGORITHM).
Local Abbreviation sanitized := (Api.sanitized (score:=score) clean).
Local Abbreviation fits_model := (Api.fits_model (score:=score) in_range).
Local Abbreviation get_tracts :=
  (Api.get_tracts (score:=score) clean jwt_decode pwd_hash SECRET_KEY ALGORITHM in_range).

Implicit Types (rows : list Row) (db : list CensusTract) (fs : Database.Files cell).

Lemma fits_model_split (t : CensusTract) :
  fits_model t =
    (String.length (Database.census_tract t) <=? 11) && Api.scores_in_range in_range t.
Proof.
  unfold Api.fits_model, Api.scores_in_range. by rewrite !andb_assoc.
Qed.

Lemma sanitized_well_formed (t : CensusTract) :
  Spec.keeps_digits clean → Spec.well_formed_id (Database.census_tract t) →
  sanitized t = t.
Proof.
  intros Hclean [_ Hd]. destruct t as [i a b c d]. unfold Api.sanitized. simpl in *.
  by rewrite (Hclean i Hd).
Qed.

(** X9. Insert, then look up. After a run that returned, the route of one
    tract (with a valid token) finds the cleaned identifier of every source
    row, and the record it returns carries that identifier, sanitized once
    more; an identifier that was not stored before the run and is the
    cleaned identifier of no source row gets the 404 exception. *)
Theorem ingested_tract_found fs db v db' tok now user :
  init_db fs db = (Return v, db') →
  get_current_user tok now = Return user →
  (∀ row, row ∈ Spec.sources fs →
     ∃ t, get_single_tract (row_id row) tok now db' = Return t ∧
          Database.census_tract t = clean (row_id row)) ∧
  (∀ q, q ∉ Database.tract_ids db →
        q ∉ (row_id <$> Spec.sources fs) →
        get_single_tract q tok now db' =
          Raise (HTTPException 404 "Census tract not found")).
Proof.
  intros Hrun Hauth.
  destruct (init_db_cases clean float fs db) as [(ts & Hts & Hrun')|[_ Hrun']];
    rewrite Hrun' in Hrun; [|done].
  injection Hrun as <- <-.
  pose proof (stored_ids_after_run clean float fs db ts Hts) as Hids.
  split.
  - intros row Hrow.
    destruct (get_single_tract_found clean jwt_decode pwd_hash SECRET_KEY ALGORITHM
                (row_id row) tok now (db ++ ts) user Hauth) as (t & _ & Hid & ->).
    { apply Hids. right. by apply list_elem_of_fmap_2. }
    exists (sanitized t). split; [done |]. simpl. by rewrite Hid.
  - intros q Hdb Hsrc.
    apply (get_single_tract_missing clean jwt_decode pwd_hash SECRET_KEY ALGORITHM
             q tok now (db ++ ts) user Hauth).
    rewrite Hids. tauto.
Qed.

(** X10. Ingest, then list. Under a sanitizer that leaves digit strings
    alone: when the table held 11-digit identifiers, the text before the
    point of every source identifier is at most 11 digits, and the scores in
    the table after the run lie within the bounds of the response model, the
    listing returns the table as it is. *)
Theorem ingested_table_listed fs db v db' tok now user :
  Spec.keeps_digits clean →
  init_db fs db = (Return v, db') →
  get_current_user tok now = Return user →
  Forall Spec.well_formed_id (Database.tract_ids db) →
  Forall (λ row, Spec.digit_text (Database.row_census_tract row)) (Spec.sources fs) →
  Forall (λ t, Api.scores_in_range in_range t = true) db' →
  get_tracts tok now db' = Api.Responds db'.
Proof.
  intros Hclean Hrun Hauth Hdb Hsrc Hscores.
  destruct (init_db_cases clean float fs db) as [(ts & Hts & Hrun')|[_ Hrun']];
    rewrite Hrun' in Hrun; [|done].
  injection Hrun as <- <-.
  assert (∀ t, t ∈ db ++ ts → Spec.well_formed_id (Database.census_tract t)) as Hwf.
  { intros t [Ht|Ht]%elem_of_app.
    - rewrite Forall_forall in Hdb. apply Hdb. unfold Database.tract_ids.
      by apply list_elem_of_fmap_2.
    - apply (inserted_from_kept float _ _ _ Hts) in Ht as (p & Hp & Hrec).
      rewrite (make_tract_id float _ _ _ Hrec), (kept_rows_fst clean _ _ _ Hp).
      apply tract_id_clean_digits; [done |].
      rewrite Forall_forall in Hsrc. apply Hsrc. by eapply kept_rows_subseteq. }
  rewrite (get_tracts_all_fit clean jwt_decode pwd_hash SECRET_KEY ALGORITHM in_range
             tok now (db ++ ts) user Hauth).
  - f_equal. rewrite <- (list_fmap_id (db ++ ts)) at 2. apply list_fmap_ext.
    intros k t Hk. apply sanitized_well_formed; [done |].
    apply Hwf. by eapply list_elem_of_lookup_2.
  - apply Forall_forall. intros t Ht.
    rewrite (sanitized_well_formed t Hclean (Hwf t Ht)), fits_model_split.
    rewrite Forall_forall in Hscores. rewrite (Hscores t Ht), andb_true_r.
    destruct (Hwf t Ht) as [-> _]. done.
Qed.

(** X11. Under a sanitizer that leaves digit strings alone, a source row
    whose identifier has more than 11 digits before the point is stored with
    all these digits when the run returns, and from then on the listing
    fails with [ValidationError], for every valid token. *)
Theorem long_identifier_unservable fs db v db' row tok now user :
  Spec.keeps_digits clean →
  init_db fs db = (Return v, db') →
  get_current_user tok now = Return user →
  row ∈ Spec.sources fs →
  Str.all_digits (Spec.truncate_at_point (Database.row_census_tract row)) = true →
  11 < String.length (Spec.truncate_at_point (Database.row_census_tract row)) →
  Spec.truncate_at_point (Database.row_census_tract row) ∈ Database.tract_ids db' ∧
  get_tracts tok now db' = Api.Fails Api.ValidationError.
Proof.
  intros Hclean Hrun Hauth Hrow Hd Hlen.
  destruct (init_db_cases clean float fs db) as [(ts & Hts & Hrun')|[_ Hrun']];
    rewrite Hrun' in Hrun; [|done].
  injection Hrun as <- <-.
  assert (row_id row = Spec.truncate_at_point (Database.row_census_tract row)) as Hid.
  { unfold Spec.row_id, Database.tract_id_clean. rewrite tract_id_padded_eq.
    unfold Str.zfill. rewrite (proj2 (Nat.leb_le _ _)) by lia. by apply Hclean. }
  assert (Spec.truncate_at_point (Database.row_census_tract row) ∈
          Database.tract_ids (db ++ ts)) as Hin.
  { rewrite <- Hid. apply (stored_ids_after_run clean float fs db ts Hts).
    right. by apply list_elem_of_fmap_2. }
  split; [done |].
  apply (get_tracts_one_unfit clean jwt_decode pwd_hash SECRET_KEY ALGORITHM in_range
           tok now (db ++ ts) user Hauth).
  apply list_elem_of_fmap in Hin as (t & Heq & Ht).
  apply Exists_exists. exists t. split; [done |].
  unfold Api.fits_model, Api.sanitized. simpl.
  rewrite <- Heq, (Hclean _ Hd), (proj2 (Nat.leb_gt _ _) Hlen). done.
Qed.

End Pipeline.

(** ** The token flow, continued *)

Section AuthMore.

Context {token digest : Type}.
Variable jwt_encode : gmap string jvalue → string → string → token.
Variable jwt_decode : token → string → list string → Z → option (gmap string jvalue).
Variable pwd_hash : string → digest.
Variable pwd_verify : string → digest → result bool.
Variables SECRET_KEY ALGORITHM : string.
Variable ACCESS_TOKEN_EXPIRE_MINUTES : Z.

Local Abbreviation users_db := (Main.users_db pwd_hash).
Local Abbreviation create_access_token :=
  (Main.create_access_token jwt_encode SECRET_KEY ALGORITHM ACCESS_TOKEN_EXPIRE_MINUTES).
Local Abbreviation get_current_user :=
  (Main.get_current_user jwt_decode pwd_hash SECRET_KEY ALGORITHM).
Local Abbreviation read_users_me :=
  (Main.read_users_me jwt_decode pwd_hash SECRET_KEY ALGORITHM).
Local Abbreviation login :=
  (Main.login jwt_encode pwd_hash pwd_verify SECRET_KEY ALGORITHM
     ACCESS_TOKEN_EXPIRE_MINUTES).

Lemma issued_claims_accepted u now now' :
  (now' ≤ now + 60 * ACCESS_TOKEN_EXPIRE_MINUTES)%Z →
  Lib.claims_accepted
    (<["exp" := JInt (now + 60 * ACCESS_TOKEN_EXPIRE_MINUTES)]> {[ "sub" := JStr u ]})
    now'.
Proof.
  intros Hnow. split_and!.
  - rewrite dom_insert, dom_singleton. set_solver.
  - intros v. rewrite lookup_insert_ne by done. rewrite lookup_singleton_eq.
    intros [= <-]. eauto.
  - intros v. rewrite lookup_insert_eq. intros [= <-]. eauto.
Qed.

Lemma issued_token_validates u now now' :
  Lib.jose_round_trip jwt_encode jwt_decode →
  is_Some (users_db !! u) →
  (now' ≤ now + 60 * ACCESS_TOKEN_EXPIRE_MINUTES)%Z →
  get_current_user (create_access_token {[ "sub" := JStr u ]} now) now' = Return u.
Proof.
  intros Hjose [user Hknown] Hnow.
  unfold Main.get_current_user, Main.create_access_token.
  rewrite Hjose by by apply issued_claims_accepted.
  rewrite lookup_insert_ne by done. rewrite lookup_singleton_eq. by rewrite Hknown.
Qed.

(** X12. A token issued for a known username at time [now] validates at time
    [now'] exactly when [now'] is not later than [now] plus the configured
    lifetime: it is accepted up to its expiry and at no time after it. *)
Theorem token_valid_until_expiry u now now' :
  Lib.jose_round_trip jwt_encode jwt_decode →
  Lib.jose_checks_expiry jwt_decode →
  Lib.jose_decodes_encoded jwt_encode jwt_decode →
  is_Some (users_db !! u) →
  get_current_user (create_access_token {[ "sub" := JStr u ]} now) now' = Return u ↔
  (now' ≤ now + 60 * ACCESS_TOKEN_EXPIRE_MINUTES)%Z.
Proof.
  intros Hround Hexp Henc Hknown. split; [|by apply issued_token_validates].
  unfold Main.get_current_user, Main.create_access_token.
  destruct (jwt_decode _ _ _ _) as [payload|] eqn:Hdec; [|done]. intros _.
  pose proof (Henc _ _ _ _ _ _ _ Hdec) as ->.
  apply (Hexp _ _ _ _ _ _ Hdec). apply lookup_insert_eq.
Qed.

(** X13. Log in, then ask who I am. When [login] returns, the token type is
    ["bearer"] and [/users/me] answers the token with the username that
    logged in, at any time up to the expiry. *)
Theorem login_then_users_me u p now now' tok :
  Lib.jose_round_trip jwt_encode jwt_decode →
  login u p now = Return tok →
  (now' ≤ now + 60 * ACCESS_TOKEN_EXPIRE_MINUTES)%Z →
  Main.token_type tok = "bearer" ∧
  read_users_me (Main.access_token tok) now' = Return u.
Proof.
  intros Hjose Hlogin Hnow. unfold Main.login in Hlogin.
  destruct (users_db !! u) as [user|] eqn:Hknown; [|done].
  destruct (pwd_verify p _) as [verified|e]; [|done].
  destruct (negb verified); [done |]. injection Hlogin as <-. simpl.
  split; [done |]. unfold Main.read_users_me.
  by rewrite issued_token_validates.
Qed.

End AuthMore.

(** ** The averages of the dashboard *)

Section DashboardMore.

Context {num : Type}.
Variable zero : num.
Variable add : num → num → num.
Variable div : num → nat → option num.

Local Abbreviation safe_avg := (Dashboard.safe_avg zero add div).

(** X14. [safe_avg] never divides by zero: given a division that is defined
    for every divisor but 0, it returns a number for every list, the empty
    one included. *)
Theorem safe_avg_never_raises (values : list num) :
  (∀ x n, n ≠ 0 → is_Some (div x n)) →
  is_Some (safe_avg values).
Proof.
  intros Hdiv. destruct values as [|x values]; simpl; [eauto |].
  apply Hdiv. done.
Qed.

End DashboardMore.

Section DashboardGroups.

Context {num : Type}.

Lemma groups_disjoint i :
  i ∈ Dashboard.low_income_tracts → i ∉ Dashboard.high_income_tracts.
Proof.
  unfold Dashboard.low_income_tracts, Dashboard.high_income_tracts.
  rewrite !elem_of_union, !elem_of_singleton.
  intros [[[[->| ->]| ->]| ->]| ->]; intros [[[[?|?]|?]|?]|?]; discriminate.
Qed.

(** X15. No row counts in both averages: a row taken for the low-income
    scores is not taken for the high-income ones, so the two lists together
    are no longer than the frame. *)
Theorem income_groups_disjoint (df : list (Database.CensusTract num)) :
  (∀ row, row ∈ df →
          Database.census_tract row ∈ Dashboard.low_income_tracts →
          Database.census_tract row ∉ Dashboard.high_income_tracts) ∧
  length (Dashboard.low_inclusion_scores df) +
  length (Dashboard.high_inclusion_scores df) ≤ length df.
Proof.
  split; [intros row _; apply groups_disjoint |].
  unfold Dashboard.low_inclusion_scores, Dashboard.high_inclusion_scores,
    Dashboard.inclusion_scores_of.
  rewrite !length_fmap.
  induction df as [|row df IH]; [done |].
  rewrite !filter_cons. pose proof (groups_disjoint (Database.census_tract row)).
  repeat case_decide; simpl; try lia. tauto.
Qed.

End DashboardGroups.

(** ** The further properties on concrete inputs *)

Lemma sample_admin_auth :
  Main.get_current_user Sample.jwt_decode Sample.pwd_hash Sample.SECRET_KEY
    Sample.ALGORITHM (Sample.admin_token 1000) 1000 = Return "admin".
Proof. vm_compute. reflexivity. Qed.

Lemma sample_overlapping_run :
  Database.init_db Sample.clean Sample.float Sample.overlapping_files [] =
    (Return PyNone,
     [Sample.tract "06037102107" 61 52 43 70;
      Sample.tract "06037102108" 10 20 30 40;
      Sample.tract "06037102109" 11 21 31 41]).
Proof. vm_compute. reflexivity. Qed.

Lemma sample_overlapping_sources :
  Spec.sources Sample.overlapping_files =
    [Sample.row "6037102107" (Sample.Num 61) (Sample.Num 52) (Sample.Num 43) (Sample.Num 70);
     Sample.row "6037102108" (Sample.Num 10) (Sample.Num 20) (Sample.Num 30) (Sample.Num 40);
     Sample.row "6037102107.0" (Sample.Num 0) (Sample.Num 0) (Sample.Num 0) (Sample.Num 0);
     Sample.row "6037102109" (Sample.Num 11) (Sample.Num 21) (Sample.Num 31) (Sample.Num 41)].
Proof. vm_compute. reflexivity. Qed.

(** X6, witness: the table of two records is listed as it is; the table with
    a score of 250 is not listed. *)
Lemma get_tracts_spec_witness :
  Api.get_tracts Sample.clean Sample.jwt_decode Sample.pwd_hash Sample.SECRET_KEY
    Sample.ALGORITHM Fixture.in_range (Sample.admin_token 1000) 1000 Sample.two_tracts =
    Api.Responds Sample.two_tracts ∧
  Api.get_tracts Sample.clean Sample.jwt_decode Sample.pwd_hash Sample.SECRET_KEY
    Sample.ALGORITHM Fixture.in_range (Sample.admin_token 1000) 1000
    Fixture.out_of_range_tracts = Api.Fails Api.ValidationError.
Proof.
  split.
  - apply (get_tracts_spec Sample.clean Sample.jwt_decode Sample.pwd_hash
             Sample.SECRET_KEY Sample.ALGORITHM Fixture.in_range
             (Sample.admin_token 1000) 1000 Sample.two_tracts "admin" sample_admin_auth).
    repeat constructor.
  - apply (get_tracts_spec Sample.clean Sample.jwt_decode Sample.pwd_hash
             Sample.SECRET_KEY Sample.ALGORITHM Fixture.in_range
             (Sample.admin_token 1000) 1000 Fixture.out_of_range_tracts "admin"
             sample_admin_auth).
    apply Exists_cons_tl, Exists_cons_hd. reflexivity.
Defined.

(** X7, witness: the record with a score of 250 is stored under
    ["06037102108"] and cannot be sent. *)
Lemma get_single_tract_response_spec_witness :
  NoDup (Database.tract_ids Fixture.out_of_range_tracts) ∧
  Api.get_single_tract_response Sample.clean Sample.jwt_decode Sample.pwd_hash
    Sample.SECRET_KEY Sample.ALGORITHM Fixture.in_range
    "06037102108" (Sample.admin_token 1000) 1000 Fixture.out_of_range_tracts =
    Api.Fails Api.ResponseValidationError.
Proof.
  assert (NoDup (Database.tract_ids Fixture.out_of_range_tracts)) as Hnd.
  { apply (bool_decide_unpack _). vm_compute. exact I. }
  split; [exact Hnd |].
  apply (proj1 (get_single_tract_response_spec Sample.clean Sample.jwt_decode
                  Sample.pwd_hash Sample.SECRET_KEY Sample.ALGORITHM Fixture.in_range
                  (Sample.admin_token 1000) 1000 Fixture.out_of_range_tracts "admin"
                  sample_admin_auth Hnd)
           (Sample.tract "06037102108" 250 20 30 40)).
  apply list_elem_of_further, list_elem_of_here.
Defined.

(** X8, witness: a token issued at time 0, presented at time 5000. *)
Lemma routes_require_token_witness :
  (∀ u, Main.get_current_user Sample.jwt_decode Sample.pwd_hash Sample.SECRET_KEY
          Sample.ALGORITHM (Sample.admin_token 0) 5000 ≠ Return u) ∧
  Api.get_tracts Sample.clean Sample.jwt_decode Sample.pwd_hash Sample.SECRET_KEY
    Sample.ALGORITHM Fixture.in_range (Sample.admin_token 0) 5000 Sample.two_tracts =
    Api.Fails (Api.Http Main.credentials_exception).
Proof.
  assert (∀ u, Main.get_current_user Sample.jwt_decode Sample.pwd_hash
                 Sample.SECRET_KEY Sample.ALGORITHM (Sample.admin_token 0) 5000
               ≠ Return u) as Hno.
  { intros u. vm_compute. discriminate. }
  split; [exact Hno |].
  exact (proj2 (proj2 (proj2 (routes_require_token Sample.clean Sample.jwt_decode
                                 Sample.pwd_hash Sample.SECRET_KEY Sample.ALGORITHM
                                 Fixture.in_range (Sample.admin_token 0) 5000 Hno)
                               "06037102107" Sample.two_tracts))).
Defined.

(** X9, witness: after the two overlapping files, the identifier of the row
    read as a float is found. *)
Lemma ingested_tract_found_witness :
  ∃ t, Main.get_single_tract Sample.clean Sample.jwt_decode Sample.pwd_hash
         Sample.SECRET_KEY Sample.ALGORITHM
         (Spec.row_id Sample.clean
            (Sample.row "6037102107.0" (Sample.Num 0) (Sample.Num 0) (Sample.Num 0)
               (Sample.Num 0)))
         (Sample.admin_token 1000) 1000
         [Sample.tract "06037102107" 61 52 43 70;
          Sample.tract "06037102108" 10 20 30 40;
          Sample.tract "06037102109" 11 21 31 41] = Return t ∧
       Database.census_tract t =
         Sample.clean
           (Spec.row_id Sample.clean
              (Sample.row "6037102107.0" (Sample.Num 0) (Sample.Num 0) (Sample.Num 0)
                 (Sample.Num 0))).
Proof.
  apply (proj1 (ingested_tract_found Sample.clean Sample.float Sample.jwt_decode
                  Sample.pwd_hash Sample.SECRET_KEY Sample.ALGORITHM
                  Sample.overlapping_files [] PyNone _ (Sample.admin_token 1000) 1000
                  "admin" sample_overlapping_run sample_admin_auth)).
  rewrite sample_overlapping_sources. do 2 apply list_elem_of_further.
  apply list_elem_of_here.
Defined.

(** X10, witness: the two overlapping files, then the listing. *)
Lemma ingested_table_listed_witness :
  Api.get_tracts Sample.clean Sample.jwt_decode Sample.pwd_hash Sample.SECRET_KEY
    Sample.ALGORITHM Fixture.in_range (Sample.admin_token 1000) 1000
    [Sample.tract "06037102107" 61 52 43 70;
     Sample.tract "06037102108" 10 20 30 40;
     Sample.tract "06037102109" 11 21 31 41] =
    Api.Responds
      [Sample.tract "06037102107" 61 52 43 70;
       Sample.tract "06037102108" 10 20 30 40;
       Sample.tract "06037102109" 11 21 31 41].
Proof.
  apply (ingested_table_listed Sample.clean Sample.float Sample.jwt_decode
           Sample.pwd_hash Sample.SECRET_KEY Sample.ALGORITHM Fixture.in_range
           Sample.overlapping_files [] PyNone _ (Sample.admin_token 1000) 1000 "admin"
           sample_clean_keeps_digits sample_overlapping_run sample_admin_auth).
  - constructor.
  - rewrite sample_overlapping_sources. repeat constructor; simpl; lia.
  - repeat constructor.
Defined.

(** X11, witness: the file with an identifier of 12 digits. *)
Lemma long_identifier_unservable_witness :
  Api.get_tracts Sample.clean Sample.jwt_decode Sample.pwd_hash Sample.SECRET_KEY
    Sample.ALGORITHM Fixture.in_range (Sample.admin_token 1000) 1000
    [Sample.tract "123456789012" 61 52 43 70] = Api.Fails Api.ValidationError.
Proof.
  assert (Database.init_db Sample.clean Sample.float Sample.long_id_file [] =
          (Return PyNone, [Sample.tract "123456789012" 61 52 43 70])) as Hrun
    by (vm_compute; reflexivity).
  refine (proj2 (long_identifier_unservable Sample.clean Sample.float Sample.jwt_decode
                   Sample.pwd_hash Sample.SECRET_KEY Sample.ALGORITHM Fixture.in_range
                   Sample.long_id_file [] PyNone _
                   (Sample.row "123456789012" (Sample.Num 61) (Sample.Num 52)
                      (Sample.Num 43) (Sample.Num 70))
                   (Sample.admin_token 1000) 1000 "admin"
                   sample_clean_keeps_digits Hrun sample_admin_auth _ _ _)).
  - vm_compute. apply list_elem_of_here.
  - vm_compute. reflexivity.
  - vm_compute. lia.
Defined.

(** X12, witness: issued at 1000 with 30 minutes, presented at 2800 and at
    2801. *)
Lemma token_valid_until_expiry_witness :
  Main.get_current_user Sample.jwt_decode Sample.pwd_hash Sample.SECRET_KEY
    Sample.ALGORITHM (Sample.admin_token 1000) 2800 = Return "admin" ∧
  Main.get_current_user Sample.jwt_decode Sample.pwd_hash Sample.SECRET_KEY
    Sample.ALGORITHM (Sample.admin_token 1000) 2801 ≠ Return "admin".
Proof.
  assert (is_Some (Main.users_db Sample.pwd_hash !! "admin")) as Hknown
    by (vm_compute; eauto).
  pose proof (λ now' : Z,
    token_valid_until_expiry Sample.jwt_encode Sample.jwt_decode Sample.pwd_hash
      Sample.SECRET_KEY Sample.ALGORITHM Sample.ACCESS_TOKEN_EXPIRE_MINUTES
      "admin" 1000 now' sample_jose_round_trip sample_jose_checks_expiry
      sample_jose_decodes_encoded Hknown) as Hiff.
  split.
  - apply (Hiff 2800%Z). vm_compute. discriminate.
  - intros Hvalid. apply (Hiff 2801%Z) in Hvalid. vm_compute in Hvalid. by apply Hvalid.
Defined.

(** X13, witness: the pair of the mapping logs in at 1000 and asks at 1500. *)
Lemma login_then_users_me_witness :
  Main.read_users_me Sample.jwt_decode Sample.pwd_hash Sample.SECRET_KEY
    Sample.ALGORITHM (Sample.admin_token 1000) 1500 = Return "admin".
Proof.
  assert (Main.login Sample.jwt_encode Sample.pwd_hash Sample.pwd_verify
            Sample.SECRET_KEY Sample.ALGORITHM Sample.ACCESS_TOKEN_EXPIRE_MINUTES
            "admin" "securepassword123" 1000 =
          Return {| Main.access_token := Sample.admin_token 1000;
                    Main.token_type := "bearer" |}) as Hlogin
    by (vm_compute; reflexivity).
  refine (proj2 (login_then_users_me Sample.jwt_encode Sample.jwt_decode
                   Sample.pwd_hash Sample.pwd_verify Sample.SECRET_KEY
                   Sample.ALGORITHM Sample.ACCESS_TOKEN_EXPIRE_MINUTES
                   "admin" "securepassword123" 1000 1500 _
                   sample_jose_round_trip Hlogin _)).
  vm_compute. discriminate.
Defined.

(** X14, witness: whole-number division, the empty list and a list of two. *)
Lemma safe_avg_never_raises_witness :
  is_Some (Dashboard.safe_avg 0%Z Z.add Fixture.div []) ∧
  is_Some (Dashboard.safe_avg 0%Z Z.add Fixture.div [61; 52]%Z).
Proof.
  assert (∀ (x : Z) (n : nat), n ≠ 0 → is_Some (Fixture.div x n)) as Hdiv.
  { intros x [|n] Hn; [done | simpl; eauto]. }
  split; apply (safe_avg_never_raises 0%Z Z.add Fixture.div _ Hdiv).
Defined.

Example safe_avg_of_two :
  Dashboard.safe_avg 0%Z Z.add Fixture.div [60; 50]%Z = Some 55%Z.
Proof. reflexivity. Qed.
